(** * mobius.py: the [knit] / [validate] / [proc] commands

    A shallow embedding of the command-line driver of the mobility report
    data extractor.  The driver glues together collaborators of the
    [mobius] package ([text.summarise], [graph_process], [csv_process],
    [prep_output_folder]) with a handful of pandas operations.  The pandas
    operations the driver calls are modelled on data frames given as a list
    of column names and a list of rows; the collaborators are parameters of
    the pipeline.  A command yields a result or an exception together with
    the events it emitted: lines printed and tables written.  Writing a
    table is taken to succeed. *)

From Stdlib Require Import List String Ascii DecimalString ZArith QArith Qround Bool Lia Lqa.
From stdpp Require Import gmap strings.
Import ListNotations.

Local Open Scope string_scope.
Local Open Scope list_scope.

(** ** Exceptions and results *)

Inductive exn : Type :=
| KeyError (what : string)
| ValueError (what : string)
| AttributeError (what : string)
| TypeError (what : string)
| OSError (what : string).

Inductive result (A : Type) : Type :=
| Ok (a : A)
| Raise (e : exn).

Arguments Ok {A} a.
Arguments Raise {A} e.

Definition rbind {A B} (r : result A) (k : A -> result B) : result B :=
  match r with
  | Ok a => k a
  | Raise e => Raise e
  end.

Fixpoint rmap {A B} (f : A -> result B) (l : list A) : result (list B) :=
  match l with
  | [] => Ok []
  | a :: l' =>
      rbind (f a) (fun b => rbind (rmap f l') (fun bs => Ok (b :: bs)))
  end.

(** ** Cells and data frames

    A cell is what pandas stores in one position of a frame: the missing
    marker, a number, a text or a boolean.  Numbers are the rationals the
    floats denote; the binary rounding of decimal literals and the
    infinities are outside the model. *)

Inductive cell : Type :=
| NaN
| Num (q : Q)
| Str (s : string)
| Flag (b : bool).

Definition row : Type := list cell.

Record DataFrame : Type := mkDF {
  columns : list string;
  rows : list row
}.

Definition isna (c : cell) : bool :=
  match c with NaN => true | _ => false end.

(** Equality of cells as group and join keys: pandas puts missing keys in
    one group and numbers are compared by value. *)
Definition cell_eqb (a b : cell) : bool :=
  match a, b with
  | NaN, NaN => true
  | Num p, Num q => Qeq_bool p q
  | Str s, Str t => String.eqb s t
  | Flag x, Flag y => Bool.eqb x y
  | _, _ => false
  end.

(** The elementwise [!=] of two float columns: a missing operand compares
    unequal to everything. *)
Definition cell_ne (a b : cell) : bool :=
  match a, b with
  | Num p, Num q => negb (Qeq_bool p q)
  | _, _ => negb (cell_eqb a b) || isna a || isna b
  end.

Fixpoint col_index (name : string) (cols : list string) : option nat :=
  match cols with
  | [] => None
  | c :: cols' =>
      if String.eqb name c then Some O
      else option_map S (col_index name cols')
  end.

Definition cell_at (i : nat) (r : row) : cell := nth i r NaN.

Fixpoint set_at (i : nat) (c : cell) (r : row) : row :=
  match r, i with
  | [], _ => []
  | _ :: r', O => c :: r'
  | x :: r', S i' => x :: set_at i' c r'
  end.

(** [df.name] and [df[name]] for reading one column. *)
Definition get_col (name : string) (df : DataFrame) : result (list cell) :=
  match col_index name (columns df) with
  | Some i => Ok (map (cell_at i) (rows df))
  | None => Raise (KeyError name)
  end.

(** [df.name = values]: the values are laid over the rows in order.  The
    driver assigns only to a column it has just read; for an absent column
    the model keeps the error of that read. *)
Fixpoint zip_set (i : nat) (vals : list cell) (rs : list row) : list row :=
  match rs, vals with
  | r :: rs', v :: vals' => set_at i v r :: zip_set i vals' rs'
  | _, _ => rs
  end.

Definition set_col (name : string) (vals : list cell) (df : DataFrame)
  : result DataFrame :=
  match col_index name (columns df) with
  | Some i => Ok (mkDF (columns df) (zip_set i vals (rows df)))
  | None => Raise (AttributeError name)
  end.

(** [df[[n1, ..., nk]]]: every name must be a column. *)
Definition select (names : list string) (df : DataFrame) : result DataFrame :=
  rbind (rmap (fun n => match col_index n (columns df) with
                        | Some i => Ok i
                        | None => Raise (KeyError n)
                        end) names)
        (fun idx => Ok (mkDF names (map (fun r => map (fun i => cell_at i r) idx)
                                        (rows df)))).

(** [df.dropna()]: rows with a missing entry in any column go. *)
Definition complete (r : row) : bool := forallb (fun c => negb (isna c)) r.

Definition dropna (df : DataFrame) : DataFrame :=
  mkDF (columns df) (List.filter complete (rows df)).

(** [df.groupby(by=keys).tail(1)]: of each group the last row, the rows
    kept in the order of the frame. *)
Definition key_eqb (k1 k2 : list cell) : bool :=
  (length k1 =? length k2)%nat &&
  forallb (fun p => cell_eqb (fst p) (snd p)) (combine k1 k2).

Fixpoint tail1 (key : row -> list cell) (rs : list row) : list row :=
  match rs with
  | [] => []
  | r :: rs' =>
      if existsb (fun r' => key_eqb (key r) (key r')) rs'
      then tail1 key rs'
      else r :: tail1 key rs'
  end.

Definition groupby_tail1 (by_ : list string) (df : DataFrame)
  : result DataFrame :=
  rbind (rmap (fun n => match col_index n (columns df) with
                        | Some i => Ok i
                        | None => Raise (KeyError n)
                        end) by_)
        (fun idx => Ok (mkDF (columns df)
                             (tail1 (fun r => map (fun i => cell_at i r) idx)
                                    (rows df)))).

(** [frame[mask]] with a boolean mask. *)
Fixpoint boolean_mask (mask : list bool) (rs : list row) : list row :=
  match mask, rs with
  | b :: mask', r :: rs' =>
      if b then r :: boolean_mask mask' rs' else boolean_mask mask' rs'
  | _, _ => []
  end.

Fixpoint map2 {A B C} (f : A -> B -> C) (l : list A) (m : list B) : list C :=
  match l, m with
  | a :: l', b :: m' => f a b :: map2 f l' m'
  | _, _ => []
  end.

(** ** Text columns *)

Definition percent : ascii := "%"%char.

(** [s.replace("%", "")] *)
Fixpoint remove_percent (s : string) : string :=
  match s with
  | EmptyString => EmptyString
  | String a s' =>
      if Ascii.eqb a percent then remove_percent s'
      else String a (remove_percent s')
  end.

(** [pat in s] *)
Fixpoint contains (pat s : string) : bool :=
  String.prefix pat s ||
  match s with
  | EmptyString => false
  | String _ s' => contains pat s'
  end.

Definition is_text (c : cell) : bool :=
  match c with Str _ => true | _ => false end.

Definition is_number (c : cell) : bool :=
  match c with Num _ => true | _ => false end.

(** [series.str]: pandas refuses the accessor on a column that holds no
    text: a column of numbers, of booleans or of missing entries alone is
    not of object type.  A column without rows is, and is accepted. *)
Definition no_rows (col : list cell) : bool :=
  match col with [] => true | _ => false end.

Definition str_accessor (col : list cell) : result (list cell) :=
  if existsb is_text col || no_rows col then Ok col
  else Raise (AttributeError "Can only use .str accessor with string values!").

(** [.str.replace("%", "", regex=False)] on one cell: the [.str] methods
    give the missing marker on anything that is not a text. *)
Definition str_replace_percent (c : cell) : cell :=
  match c with
  | Str s => Str (remove_percent s)
  | _ => NaN
  end.

(** [.str.contains(pat, regex=False)] on one cell; [None] is the missing
    marker in the resulting mask. *)
Definition str_contains (pat : string) (c : cell) : option bool :=
  match c with
  | Str s => Some (contains pat s)
  | _ => None
  end.

(** [df.loc[mask, name] = value]: a mask of object type holding a missing
    entry cannot be used for indexing and raises, as in the pandas releases
    the driver was written for.  The column exists at the one place the
    driver uses this. *)
Fixpoint bool_indexer (mask : list (option bool)) : result (list bool) :=
  match mask with
  | [] => Ok []
  | Some b :: mask' => rbind (bool_indexer mask') (fun bs => Ok (b :: bs))
  | None :: _ =>
      Raise (ValueError "Cannot mask with non-boolean array containing NA / NaN values")
  end.

Definition loc_set (mask : list (option bool)) (name : string) (v : cell)
    (df : DataFrame) : result DataFrame :=
  rbind (bool_indexer mask) (fun bs =>
  rbind (get_col name df) (fun old =>
  set_col name (map2 (fun (b : bool) c => if b then v else c) bs old) df)).

(** ** Numbers *)

(** numpy's [round]: to the nearest integer, a tie going to the even
    neighbour. *)
Definition round_half_even (q : Q) : Z :=
  let f := Qfloor q in
  match (q - inject_Z f ?= 1 # 2)%Q with
  | Lt => f
  | Gt => (f + 1)%Z
  | Eq => if Z.even f then f else (f + 1)%Z
  end.

Definition flag_num (b : bool) : Q := if b then 1%Q else 0%Q.

(** [series.round()] on one cell. *)
Definition round_cell (c : cell) : result cell :=
  match c with
  | NaN => Ok NaN
  | Num q => Ok (Num (inject_Z (round_half_even q)))
  | Flag b => Ok (Num (flag_num b))
  | Str s => Raise (TypeError "round")
  end.

Definition float_cell (f : option Q) : cell :=
  match f with
  | Some q => Num q
  | None => NaN
  end.

(** ** What the run leaves behind

    A written table is its header line and its records; the driver writes
    with [index=False], so there is no index column. *)

Record csv_file : Type := mkCsv {
  header : list string;
  records : list row
}.

Inductive event : Type :=
| Print (line : string)
| PrintMarkdown (index : list string) (table : DataFrame)
| ToCsv (path : string) (content : csv_file).

(** Commands: a result or an exception, and the events emitted up to
    there. *)
Definition M (A : Type) : Type := (result A * list event)%type.

Definition ret {A} (a : A) : M A := (Ok a, []).

Definition bind {A B} (m : M A) (k : A -> M B) : M B :=
  match m with
  | (Ok a, l) => let (r, l') := k a in (r, l ++ l')
  | (Raise e, l) => (Raise e, l)
  end.

Definition lift {A} (r : result A) : M A := (r, []).

Definition emit (e : event) : M unit := (Ok tt, [e]).

Notation "'let!' x ':=' m 'in' k" := (bind m (fun x => k))
  (at level 10, x name, m at level 100, k at level 200,
   format "'[v' 'let!'  x  ':='  m  'in' '/' k ']'").

Fixpoint mapM {A B} (f : A -> M B) (l : list A) : M (list B) :=
  match l with
  | [] => ret []
  | a :: l' => let! b := f a in let! bs := mapM f l' in ret (b :: bs)
  end.

Definition log {A} (m : M A) : list event := snd m.
Definition outcome {A} (m : M A) : result A := fst m.

Definition print (s : string) : M unit := emit (Print s).

(** [df.to_csv(path, index=False)] *)
Definition to_csv (path : string) (df : DataFrame) : M unit :=
  emit (ToCsv path (mkCsv (columns df) (rows df))).

Definition str_of_nat (n : nat) : string :=
  NilEmpty.string_of_uint (Nat.to_uint n).

(** [df.name] read as an attribute. *)
Definition attr (name : string) (df : DataFrame) : result (list cell) :=
  match get_col name df with
  | Ok c => Ok c
  | Raise _ => Raise (AttributeError name)
  end.

(** ** Joining and stacking frames *)

(** The order in which an outer merge lays out its keys: the order of
    their first appearance, the keys of the left frame before those of the
    right frame, and a missing key last. *)
Fixpoint first_seen (ks : list cell) : list cell :=
  match ks with
  | [] => []
  | k :: ks' =>
      k :: List.filter (fun k' => negb (cell_eqb k k')) (first_seen ks')
  end.

Definition join_keys (lk rk : list cell) : list cell :=
  first_seen (List.filter (fun k => negb (isna k)) (lk ++ rk))
  ++ (if existsb isna (lk ++ rk) then [NaN] else []).

(** A key column of numbers: it holds a number and nothing but numbers and
    missing keys. *)
Definition number_column (col : list cell) : bool :=
  existsb is_number col && forallb (fun c => is_number c || isna c) col.

(** [pd.merge] refuses to join a key column that holds texts with a key
    column of numbers; the message names the two types. *)
Definition check_keys (lk rk : list cell) : result unit :=
  if (existsb is_text lk && number_column rk)
     || (number_column lk && existsb is_text rk)
  then Raise (ValueError "You are trying to merge on columns of different types. If you wish to proceed you should use pd.concat")
  else Ok tt.

(** The rows an outer join makes of the left rows [ls] and the right rows
    [rs] that share one key: every pairing, or the rows of the one side
    padded with missing cells when the other side has none. *)
Definition join_group (lpad rpad : row) (ls rs : list row) : list row :=
  match ls, rs with
  | [], _ => map (fun r => lpad ++ r) rs
  | _, [] => map (fun l => l ++ rpad) ls
  | _, _ => flat_map (fun l => map (fun r => l ++ r) rs) ls
  end.

Definition has_name (n : string) (l : list string) : bool :=
  existsb (String.eqb n) l.

Definition add_suffix (sfx : string) (other : list string) (cols : list string)
  : list string :=
  map (fun c => if has_name c other then c +:+ sfx else c) cols.

Definition pad_of (df : DataFrame) : row := repeat NaN (length (columns df)).

(** [pd.merge(left, right, left_on=.., right_on=.., how="outer")] *)
Definition merge_outer (left right : DataFrame) (left_on right_on : string)
  : result DataFrame :=
  match col_index left_on (columns left) with
  | None => Raise (KeyError left_on)
  | Some i =>
      match col_index right_on (columns right) with
      | None => Raise (KeyError right_on)
      | Some j =>
          let lk := map (cell_at i) (rows left) in
          let rk := map (cell_at j) (rows right) in
          rbind (check_keys lk rk) (fun _ =>
          Ok (mkDF
                (add_suffix "_x" (columns right) (columns left)
                 ++ add_suffix "_y" (columns left) (columns right))
                (flat_map
                   (fun k =>
                      join_group (pad_of left) (pad_of right)
                        (List.filter (fun l => cell_eqb (cell_at i l) k) (rows left))
                        (List.filter (fun r => cell_eqb (cell_at j r) k) (rows right)))
                   (join_keys lk rk))))
      end
  end.

(** [pd.concat(dfs)]: the frames stacked, over the union of their columns
    in order of first appearance. *)
Definition union_cols (dfs : list DataFrame) : list string :=
  fold_left (fun acc c => if has_name c acc then acc else acc ++ [c])
            (flat_map columns dfs) [].

Definition reindex (cols : list string) (df : DataFrame) (r : row) : row :=
  map (fun c => match col_index c (columns df) with
                | Some i => cell_at i r
                | None => NaN
                end) cols.

Definition concat (dfs : list DataFrame) : result DataFrame :=
  match dfs with
  | [] => Raise (ValueError "No objects to concatenate")
  | _ =>
      let cols := union_cols dfs in
      Ok (mkDF cols (flat_map (fun df => map (reindex cols df) (rows df)) dfs))
  end.

(** ** Paths *)

Definition slash : ascii := "/"%char.
Definition dot : ascii := "."%char.

Fixpoint has_char (c : ascii) (s : string) : bool :=
  match s with
  | EmptyString => false
  | String a s' => Ascii.eqb a c || has_char c s'
  end.

(** [os.path.basename] *)
Fixpoint basename (p : string) : string :=
  match p with
  | EmptyString => EmptyString
  | String _ p' => if has_char slash p then basename p' else p
  end.

Fixpoint rfind (c : ascii) (s : string) : option nat :=
  match s with
  | EmptyString => None
  | String a s' =>
      match rfind c s' with
      | Some i => Some (S i)
      | None => if Ascii.eqb a c then Some O else None
      end
  end.

(** [os.path.splitext(p)[0]]: the part before the last dot of the file
    name, unless only dots come before it. *)
Definition splitext_root (p : string) : string :=
  match rfind dot p with
  | None => p
  | Some d =>
      let start := match rfind slash p with Some s => S s | None => O end in
      if (start <=? d)%nat
         && negb (forallb (fun a => Ascii.eqb a dot)
                    (list_ascii_of_string (String.substring start (d - start) p)))
      then String.substring 0 d p
      else p
  end.

(** [os.path.join(a, b)] *)
Definition path_join (a b : string) : string :=
  match b with
  | String c _ =>
      if Ascii.eqb c slash then b
      else match a with
           | EmptyString => b
           | _ => if String.eqb (String.substring (String.length a - 1) 1 a) "/"
                  then a +:+ b else a +:+ "/" +:+ b
           end
  | EmptyString =>
      match a with
      | EmptyString => b
      | _ => if String.eqb (String.substring (String.length a - 1) 1 a) "/"
             then a else a +:+ "/"
      end
  end.

(** ** The driver *)

Definition sentinel : string := "Not enough data".

Definition final_columns : list string :=
  ["country"; "region"; "plot_name"; "page_num"; "plot_num";
   "asterisk"; "date"; "value"; "headline"].

Definition report_columns : list string :=
  ["country"; "region"; "plot_name"; "value"; "headline"].

Section Driver.

(** Python's [float(s)] on a text: [None] when it raises [ValueError],
    [Some None] for a not-a-number literal. *)
Variable float_of_text : string -> option (option Q).

(** [series.astype(float)] on one cell of an object column. *)
Definition astype_float (c : cell) : result cell :=
  match c with
  | NaN => Ok NaN
  | Num q => Ok (Num q)
  | Flag b => Ok (Num (flag_num b))
  | Str s =>
      match float_of_text s with
      | Some f => Ok (float_cell f)
      | None => Raise (ValueError "could not convert string to float")
      end
  end.

(** Lines 140-142 of [validate]. *)
Definition normalise_headline (df : DataFrame) : result DataFrame :=
  rbind (attr "headline" df) (fun h =>
  rbind (str_accessor h) (fun h =>
  rbind (set_col "headline" (map str_replace_percent h) df) (fun df =>
  rbind (attr "headline" df) (fun h =>
  rbind (str_accessor h) (fun h =>
  rbind (loc_set (map (str_contains sentinel) h) "headline" NaN df) (fun df =>
  rbind (attr "headline" df) (fun h =>
  rbind (rmap astype_float h) (fun h =>
  set_col "headline" h df)))))))).

(** Line 147: the rows of [last_entries] whose rounded value is not the
    headline. *)
Definition mismatches (last_entries : DataFrame) : result DataFrame :=
  rbind (attr "value" last_entries) (fun value =>
  rbind (rmap round_cell value) (fun rounded =>
  rbind (attr "headline" last_entries) (fun headline =>
  Ok (mkDF (columns last_entries)
           (boolean_mask (map2 cell_ne rounded headline)
                         (rows last_entries)))))).

Definition validate (df : DataFrame) : M unit :=
  let! df := lift (normalise_headline df) in
  let! last_entries :=
    lift (groupby_tail1 ["region"; "plot_name"] (dropna df)) in
  let! _ := print ("There are " +:+ str_of_nat (length (rows last_entries))
                   +:+ " plots with data") in
  let! invalid_df := lift (mismatches last_entries) in
  let! _ := print ("There are " +:+ str_of_nat (length (rows invalid_df))
                   +:+ " plots where the last data point doesn't match the headline figure") in
  let! shown := lift (select report_columns invalid_df) in
  emit (PrintMarkdown ["country"; "region"; "plot_name"] shown).

(** The collaborators: the text extractor, the chart extractor, the
    tabulator, the output folder preparation and the reading of the date
    lookup.  Each yields a value or raises, and may leave events of its
    own. *)
Variable Paths : Type.
Variable ChartNum : Type.
Variable summarise : string -> M DataFrame.
Variable graph_process : string -> option string -> bool -> M (list (ChartNum * Paths)).
Variable read_csv : string -> M DataFrame.
Variable csv_process :
  Paths -> ChartNum -> DataFrame -> string -> bool -> bool -> M DataFrame.
Variable prep_output_folder : string -> string -> option string -> M string.

Definition summary_path (input_pdf output_folder : string) : string :=
  path_join output_folder (splitext_root (basename input_pdf) +:+ "_summary.csv").

Definition final_path (input_pdf output_folder : string) : string :=
  path_join output_folder (splitext_root (basename input_pdf) +:+ ".csv").

Definition knit (input_pdf input_svg output_folder dates_file : string)
  : M unit :=
  let! _ := print ("Knitting " +:+ input_pdf +:+ " and " +:+ input_svg
                   +:+ " data together") in
  let! summary_df := summarise input_pdf in
  let outfile := summary_path input_pdf output_folder in
  let! _ := to_csv outfile summary_df in
  let! data := graph_process input_svg None false in
  let! date_lookup_df := read_csv dates_file in
  let! dfs := mapM (fun item =>
                      csv_process (snd item) (fst item) date_lookup_df
                                  output_folder false true) data in
  let! plot_df := lift (concat dfs) in
  let! result_df :=
    lift (merge_outer summary_df plot_df "plot_num" "graph_num") in
  let final_outfile := final_path input_pdf output_folder in
  let! result_df := lift (select final_columns result_df) in
  let! _ := to_csv final_outfile result_df in
  validate result_df.

(** The command line gives [knit] three arguments; the date lookup is
    the default. *)
Definition knit_command (input_pdf input_svg output_folder : string) : M unit :=
  knit input_pdf input_svg output_folder "config/dates_lookup.csv".

Definition proc (input_location output_folder : string)
    (folder : option string) (dates_file : string) (svgs plots : bool)
  : M (list DataFrame) :=
  let! date_lookup_df := read_csv dates_file in
  let! _ := print ("Processing " +:+ input_location) in
  let! output_folder := prep_output_folder input_location output_folder folder in
  let! data := graph_process input_location (Some output_folder) svgs in
  mapM (fun item =>
          csv_process (snd item) (fst item) date_lookup_df
                      output_folder plots true) data.

End Driver.

(** ** A reading of plain decimal literals

    The texts the report carries are signed decimals such as [+12],
    [-7] or [3.5].  [decimal_float] reads those the way [float] does and
    rejects everything else; it instantiates [float_of_text] in the
    worked examples below. *)

Definition digit_of (a : ascii) : option Z :=
  let n := Z.of_nat (nat_of_ascii a) in
  if ((48 <=? n) && (n <=? 57))%Z then Some (n - 48)%Z else None.

Fixpoint fraction_digits (s : string) (num : Z) (den : positive) : option Q :=
  match s with
  | EmptyString => Some (num # den)
  | String a s' =>
      match digit_of a with
      | Some d => fraction_digits s' (10 * num + d)%Z (10 * den)%positive
      | None => None
      end
  end.

Fixpoint integer_digits (s : string) (num : Z) : option Q :=
  match s with
  | EmptyString => Some (num # 1)
  | String a s' =>
      if Ascii.eqb a dot then fraction_digits s' num 1
      else match digit_of a with
           | Some d => integer_digits s' (10 * num + d)%Z
           | None => None
           end
  end.

Definition has_digit (s : string) : bool :=
  existsb (fun a => match digit_of a with Some _ => true | None => false end)
          (list_ascii_of_string s).

Definition unsigned_decimal (s : string) : option Q :=
  if has_digit s then integer_digits s 0 else None.

Definition decimal_float (s : string) : option (option Q) :=
  match s with
  | String "+" s' => option_map Some (unsigned_decimal s')
  | String "-" s' => option_map (fun q => Some (- q)%Q) (unsigned_decimal s')
  | _ => option_map Some (unsigned_decimal s)
  end.

(** ** The files on disk

    A file is a table or a document of another kind.  [to_csv] opens its
    target for writing, so a written table replaces whatever the path
    held. *)

Inductive file : Type :=
| Table (t : csv_file)
| Document (bytes : string).

Definition store : Type := gmap string file.

Definition write_event (fs : store) (e : event) : store :=
  match e with
  | ToCsv p c => <[p := Table c]> fs
  | _ => fs
  end.

Definition write_files (l : list event) (fs : store) : store :=
  fold_left write_event l fs.

Fixpoint last_write (p : string) (l : list event) : option csv_file :=
  match l with
  | [] => None
  | e :: l' =>
      match last_write p l' with
      | Some c => Some c
      | None =>
          match e with
          | ToCsv q c => if String.eqb q p then Some c else None
          | _ => None
          end
      end
  end.

(** ** Runs in a file system

    The collaborators read the file they are given: what the text
    extractor, the chart extractor and [read_csv] yield depends on the path
    and on the file the store holds under it, and the tabulator works on
    what the chart extractor handed over. *)

Section World.
Variable float_of_text : string -> option (option Q).
Variables Paths ChartNum : Type.
Variable summarise_in : option file -> string -> M DataFrame.
Variable graph_process_in :
  option file -> string -> option string -> bool -> M (list (ChartNum * Paths)).
Variable read_csv_in : option file -> string -> M DataFrame.
Variable csv_process :
  Paths -> ChartNum -> DataFrame -> string -> bool -> bool -> M DataFrame.
Variables input_pdf input_svg output_folder dates_file : string.

(** [knit] run on the files of [w].  The three inputs are read as [w]
    has them, which is how the run finds them when nothing has written to
    them since it started. *)
Definition knit_in (w : store) : M unit :=
  knit float_of_text Paths ChartNum
       (fun p => summarise_in (w !! p) p)
       (fun p => graph_process_in (w !! p) p)
       (fun p => read_csv_in (w !! p) p)
       csv_process input_pdf input_svg output_folder dates_file.

(** The files after that run. *)
Definition files_after_knit (w : store) : store :=
  write_files (log (knit_in w)) w.

End World.

(** ** Vocabulary of the statements *)

(** The cell of row [r] under the column [name] of [df]. *)
Definition field (df : DataFrame) (name : string) (r : row) : cell :=
  match col_index name (columns df) with
  | Some i => cell_at i r
  | None => NaN
  end.








(** Two rows of the two sides of the merge carry the same chart number. *)
Definition matches (i j : nat) (l r : row) : bool :=
  cell_eqb (cell_at i l) (cell_at j r).

(** The chart numbers of the two frames, where both have them, are of
    kinds [pd.merge] joins. *)
Definition keys_joinable (summary_df plot_df : DataFrame) : bool :=
  match col_index "plot_num" (columns summary_df),
        col_index "graph_num" (columns plot_df) with
  | Some i, Some j =>
      match check_keys (map (cell_at i) (rows summary_df))
                       (map (cell_at j) (rows plot_df)) with
      | Ok _ => true
      | Raise _ => false
      end
  | _, _ => true
  end.

Definition mask_bit (m : option bool) : bool :=
  match m with Some b => b | None => false end.

(** What lines 140-141 leave of a headline cell: the text without its
    percent signs, or the missing marker when it carries the sentinel. *)
Definition strip_cell (c : cell) : cell :=
  match c with
  | Str text =>
      if contains sentinel (remove_percent text) then NaN
      else Str (remove_percent text)
  | _ => NaN
  end.

(** What lines 140-142 make of one headline text. *)
Definition normalise_text (f : string -> option (option Q)) (text : string)
  : result cell :=
  let t := remove_percent text in
  if contains sentinel t then Ok NaN
  else match f t with
       | Some v => Ok (float_cell v)
       | None => Raise (ValueError "could not convert string to float")
       end.

Definition normalise_cell (f : string -> option (option Q)) (c : cell) : cell :=
  match c with
  | Str text => match normalise_text f text with Ok c' => c' | Raise _ => NaN end
  | _ => NaN
  end.

Definition normalise_row (f : string -> option (option Q)) (i : nat) (r : row)
  : row :=
  set_at i (normalise_cell f (cell_at i r)) r.

Definition numeric_or_missing (c : cell) : bool :=
  match c with
  | NaN | Num _ => true
  | _ => false
  end.

Definition headline_cells (t : csv_file) : list cell :=
  match col_index "headline" (header t) with
  | Some i => map (cell_at i) (records t)
  | None => []
  end.

(** A written table whose headline column is numeric or missing
    throughout. *)
Definition headline_normalised (e : event) : bool :=
  match e with
  | ToCsv _ t => forallb numeric_or_missing (headline_cells t)
  | _ => true
  end.

Definition is_write (e : event) : bool :=
  match e with
  | ToCsv _ _ => true
  | _ => false
  end.



(** ** What [validate] compares and reports *)











(** A left row that no right row matches, and a right row that no left
    row matches. *)
Definition unmatched_left (i j : nat) (R : DataFrame) (l : row) : bool :=
  forallb (fun r => negb (matches i j l r)) (rows R).

Definition unmatched_right (i j : nat) (L : DataFrame) (r : row) : bool :=
  forallb (fun l => negb (matches i j l r)) (rows L).

(** The rows of the full outer join of [L] and [R] on cell [i] of the left
    rows and cell [j] of the right rows, as the claim words it: every
    pairing of a left row with a right row of the same key, every left row
    without such a right row over missing cells, and every right row
    without such a left row under missing cells. *)
Definition outer_join_rows (i j : nat) (L R : DataFrame) : list row :=
  flat_map (fun l => map (fun r => l ++ r)
                         (List.filter (matches i j l) (rows R))) (rows L)
  ++ map (fun l => l ++ pad_of R) (List.filter (unmatched_left i j R) (rows L))
  ++ map (fun r => pad_of L ++ r) (List.filter (unmatched_right i j L) (rows R)).

(** ** A worked report

    One summary with three headlines and the series of two charts: chart 1
    ends at [last] against a headline of 12, chart 2 has no usable
    headline, chart 3 has a headline and no series. *)

Definition summary_columns : list string :=
  ["country"; "region"; "plot_name"; "page_num"; "plot_num"; "asterisk";
   "headline"].

Definition sample_summary (headline1 : string) : DataFrame :=
  mkDF summary_columns
    [[Str "GB"; Str "Leeds"; Str "Retail"; Num 1; Num 1; Flag false; Str headline1];
     [Str "GB"; Str "Leeds"; Str "Parks"; Num 1; Num 2; Flag true;
      Str "Not enough data for this date"];
     [Str "GB"; Str "York"; Str "Retail"; Num 2; Num 3; Flag false; Str "-5%"]].

Definition sample_series (last : Q) (num : Z) : DataFrame :=
  mkDF ["date"; "value"; "graph_num"]
    [[Str "2020-03-27"; Num 9; Num (inject_Z num)];
     [Str "2020-03-28"; NaN; Num (inject_Z num)];
     [Str "2020-03-29"; Num last; Num (inject_Z num)]].

Definition sample_dates : DataFrame :=
  mkDF ["x"; "date"] [[Num 0; Str "2020-03-27"]; [Num 10; Str "2020-03-29"]].

Definition sample_summarise (headline1 : string) (pdf : string) : M DataFrame :=
  ret (sample_summary headline1).

Definition sample_graph_process (svg : string) (out : option string)
    (svgs : bool) : M (list (Z * unit)) :=
  ret [(1%Z, tt); (2%Z, tt)].

Definition sample_read_csv (path : string) : M DataFrame := ret sample_dates.

Definition sample_csv_process (last : Q) (paths : unit) (num : Z)
    (dates : DataFrame) (out : string) (plots save : bool) : M DataFrame :=
  ret (sample_series last num).

Definition sample_prep (input out : string) (folder : option string) : M string :=
  ret out.

(** The same report when the chart document cannot be read. *)
Definition broken_graph_process (svg : string) (out : option string)
    (svgs : bool) : M (list (Z * unit)) :=
  (Raise (OSError svg), []).

Definition sample_knit (headline1 : string) (last : Q) : M unit :=
  knit decimal_float unit Z (sample_summarise headline1) sample_graph_process
       sample_read_csv (sample_csv_process last)
       "GB.pdf" "GB.svg" "out" "config/dates_lookup.csv".

Definition broken_knit : M unit :=
  knit decimal_float unit Z (sample_summarise "+12%") broken_graph_process
       sample_read_csv (sample_csv_process (124 # 10))
       "GB.pdf" "GB.svg" "out" "config/dates_lookup.csv".

(** The merged table of the worked report, as [validate] receives it. *)
Definition sample_table (headline1 : string) (last : Q) : DataFrame :=
  mkDF final_columns
    [[Str "GB"; Str "Leeds"; Str "Retail"; Num 1; Num 1; Flag false;
      Str "2020-03-27"; Num 9; Str headline1];
     [Str "GB"; Str "Leeds"; Str "Retail"; Num 1; Num 1; Flag false;
      Str "2020-03-28"; NaN; Str headline1];
     [Str "GB"; Str "Leeds"; Str "Retail"; Num 1; Num 1; Flag false;
      Str "2020-03-29"; Num last; Str headline1];
     [Str "GB"; Str "Leeds"; Str "Parks"; Num 1; Num 2; Flag true;
      Str "2020-03-27"; Num 9; Str "Not enough data for this date"];
     [Str "GB"; Str "York"; Str "Retail"; Num 2; Num 3; Flag false;
      NaN; NaN; Str "-5%"]].

(** A table with holes: in the first group a later row lacks only its
    asterisk flag and another only its date; the second group has no
    usable headline; the third has a headline and no series. *)
Definition sample_gaps : DataFrame :=
  mkDF final_columns
    [[Str "GB"; Str "Leeds"; Str "Retail"; Num 1; Num 1; Flag false;
      Str "2020-03-27"; Num 12; Str "12%"];
     [Str "GB"; Str "Leeds"; Str "Retail"; Num 1; Num 1; NaN;
      Str "2020-03-28"; Num 40; Str "12%"];
     [Str "GB"; Str "Leeds"; Str "Retail"; Num 1; Num 1; Flag false;
      NaN; Num 41; Str "12%"];
     [Str "GB"; Str "Leeds"; Str "Parks"; Num 1; Num 2; Flag true;
      Str "2020-03-27"; Num 7; Str "Not enough data for this date"];
     [Str "GB"; Str "York"; Str "Retail"; Num 2; Num 3; Flag false;
      NaN; NaN; Str "-5%"]].

(** Series rows for chart 1 and for a chart 4 that the summary does not
    know. *)
Definition sample_plot : DataFrame :=
  mkDF ["date"; "value"; "graph_num"]
    [[Str "2020-03-27"; Num 9; Num 1];
     [Str "2020-03-29"; Num 12; Num 1];
     [Str "2020-03-27"; Num 3; Num 4]].

(** ** Reports with rows out of order and with stray series rows *)




(** A chart document with chart 1 and a chart 4 that the summary does not
    know. *)
Definition stray_graph_process (svg : string) (out : option string)
    (svgs : bool) : M (list (Z * unit)) :=
  ret [(1%Z, tt); (4%Z, tt)].


(** A chart document and a tabulator for the frames of [sample_plot]:
    chart 1 with two rows and chart 4 with one. *)
Definition plot_csv_process (paths : unit) (num : Z) (dates : DataFrame)
    (out : string) (plots save : bool) : M DataFrame :=
  ret (mkDF ["date"; "value"; "graph_num"]
         (List.filter (fun r => cell_eqb (cell_at 2 r) (Num (inject_Z num)))
                      (rows sample_plot))).

Definition plot_knit : M unit :=
  knit decimal_float unit Z (sample_summarise "+12%") stray_graph_process
       sample_read_csv plot_csv_process
       "GB.pdf" "GB.svg" "out" "config/dates_lookup.csv".

(** The worked report as files: the two documents and the date lookup,
    and collaborators that read them. *)
Definition sample_store : store :=
  <["GB.pdf" := Document "summary"]>
    (<["GB.svg" := Document "charts"]>
       (<["config/dates_lookup.csv" :=
            Table (mkCsv (columns sample_dates) (rows sample_dates))]> ∅)).

Definition file_summarise (file : option file) (pdf : string) : M DataFrame :=
  match file with
  | Some (Document _) => ret (sample_summary "+12%")
  | _ => (Raise (OSError pdf), [])
  end.

Definition file_graph_process (file : option file) (svg : string)
    (out : option string) (svgs : bool) : M (list (Z * unit)) :=
  match file with
  | Some (Document _) => ret [(1%Z, tt); (2%Z, tt)]
  | _ => (Raise (OSError svg), [])
  end.

Definition file_read_csv (file : option file) (path : string) : M DataFrame :=
  match file with
  | Some (Table t) => ret (mkDF (header t) (records t))
  | _ => (Raise (OSError path), [])
  end.

(** A tabulator that dates its rows by the second cell of the first row
    of the lookup, and a run whose final table lands on the date lookup:
    the report [dates_lookup.pdf] knitted into the folder [config]. *)
Definition dated_csv_process (paths : unit) (num : Z) (dates : DataFrame)
    (out : string) (plots save : bool) : M DataFrame :=
  ret (mkDF ["date"; "value"; "graph_num"]
         [[cell_at 1 (hd [] (rows dates)); Num 12; Num (inject_Z num)]]).

Definition clash_store : store :=
  <["dates_lookup.pdf" := Document "summary"]> sample_store.

Definition clash_knit (w : store) : M unit :=
  knit_in decimal_float unit Z file_summarise file_graph_process file_read_csv
          dated_csv_process
          "dates_lookup.pdf" "GB.svg" "config" "config/dates_lookup.csv" w.

Definition clash_after (w : store) : store :=
  files_after_knit decimal_float unit Z file_summarise file_graph_process
                   file_read_csv dated_csv_process
                   "dates_lookup.pdf" "GB.svg" "config"
                   "config/dates_lookup.csv" w.



(** ** Vocabulary of the further properties *)

(** [s.endswith(sfx)] *)
Fixpoint ends_with (sfx s : string) : bool :=
  String.eqb sfx s ||
  match s with
  | EmptyString => false
  | String _ s' => ends_with sfx s'
  end.

(** What [os.path.join] puts in front of a relative file name. *)
Definition folder_prefix (a : string) : string :=
  match a with
  | EmptyString => EmptyString
  | _ => if String.eqb (String.substring (String.length a - 1) 1 a) "/"
         then a else a +:+ "/"
  end.

(** A chart document without charts, and a tabulator whose frames carry
    the country as well. *)
Definition empty_graph_process (svg : string) (out : option string)
    (svgs : bool) : M (list (Z * unit)) :=
  ret [].

Definition country_csv_process (paths : unit) (num : Z) (dates : DataFrame)
    (out : string) (plots save : bool) : M DataFrame :=
  ret (mkDF ["country"; "date"; "value"; "graph_num"]
         [[Str "GB"; Str "2020-03-27"; Num 9; Num (inject_Z num)]]).

(** ** The bucket commands: [get], [get_country], [show], [svg], [pdf],
    [download]

    The storage client and the regular expression engine are parameters.
    A command of this part yields a value or an error together with the
    events it emitted: lines printed, files opened for writing and data
    written to them.  Opening a file for writing is taken to succeed: the
    folders [svgs] and [pdfs] exist. *)

Module Bucket.

Definition SVG_BUCKET : string := "mobility-reports".

Inductive error : Type :=
| IndexError (what : string)
| ReError (pattern : string)
| ClientError (what : string).

Inductive res (A : Type) : Type :=
| Val (a : A)
| Err (e : error).

Arguments Val {A} a.
Arguments Err {A} e.

(** A blob of the bucket: its name and the bytes behind it. *)
Record blob : Type := mkBlob {
  name : string;
  content : string
}.

Inductive event : Type :=
| Say (line : string)
| Open (path : string)
| Write (path : string) (data : string).

Definition Cmd (A : Type) : Type := (res A * list event)%type.

Definition ret {A} (a : A) : Cmd A := (Val a, []).

Definition bind {A B} (m : Cmd A) (k : A -> Cmd B) : Cmd B :=
  match m with
  | (Val a, l) => let (r, l') := k a in (r, l ++ l')
  | (Err e, l) => (Err e, l)
  end.

Definition lift {A} (r : res A) : Cmd A := (r, []).

Definition emit (e : event) : Cmd unit := (Val tt, [e]).

Definition print (s : string) : Cmd unit := emit (Say s).

Notation "'let?' x ':=' m 'in' k" := (bind m (fun x => k))
  (at level 10, x name, m at level 100, k at level 200,
   format "'[v' 'let?'  x  ':='  m  'in' '/' k ']'").

(** [s.split(sep)] for a separator of one character. *)
Fixpoint split_on (sep : ascii) (s : string) : list string :=
  match s with
  | EmptyString => [EmptyString]
  | String c s' =>
      if Ascii.eqb c sep then EmptyString :: split_on sep s'
      else match split_on sep s' with
           | h :: t => String c h :: t
           | [] => [String c EmptyString]
           end
  end.

(** [s.replace(pat, "")] for a pattern that is not empty: the occurrences
    are taken from the left and do not overlap.  [skip] counts the
    characters of an occurrence still to drop. *)
Fixpoint remove_from (pat s : string) (skip : nat) : string :=
  match s with
  | EmptyString => EmptyString
  | String c s' =>
      match skip with
      | S k => remove_from pat s' k
      | O =>
          if String.prefix pat s
          then remove_from pat s' (String.length pat - 1)
          else String c (remove_from pat s' 0)
      end
  end.

Definition remove_all (pat s : string) : string :=
  match pat with
  | EmptyString => s
  | _ => remove_from pat s 0
  end.

Definition report_suffix : string := "Mobility_Report_en.pdf".

(** [s[11:-1]] *)
Definition slice_11_to_last (s : string) : string :=
  String.substring 11 (String.length s - 1 - 11) s.

Definition get_country (b : blob) (svg : bool) : res string :=
  let name := List.last (split_on slash (name b)) EmptyString in
  if svg then
    match split_on "_"%char name with
    | _ :: country :: _ => Val country
    | _ => Err (IndexError "list index out of range")
    end
  else Val (slice_11_to_last (remove_all report_suffix name)).

Definition MAXLEN : nat := 20.

Fixpoint spaces (n : nat) : string :=
  match n with
  | O => EmptyString
  | S n' => String " "%char (spaces n')
  end.

(** Names are texts in UTF-8, and Python counts and cuts them by
    characters: a byte of the form [10xxxxxx] continues the character
    before it. *)
Definition continuation (a : ascii) : bool :=
  match a with
  | Ascii _ _ _ _ _ _ b6 b7 => b7 && negb b6
  end.

(** [len(s)] *)
Fixpoint char_length (s : string) : nat :=
  match s with
  | EmptyString => O
  | String a s' =>
      if continuation a then char_length s' else S (char_length s')
  end.

(** [s[:n]] *)
Fixpoint char_take (n : nat) (s : string) : string :=
  match s with
  | EmptyString => EmptyString
  | String a s' =>
      if continuation a then String a (char_take n s')
      else match n with
           | O => EmptyString
           | S n' => String a (char_take n' s')
           end
  end.

(** The country column of [show]: padded with blanks or cut to [MAXLEN]. *)
Definition country_column (country : string) : string :=
  if (char_length country <? MAXLEN)%nat
  then country +:+ spaces (MAXLEN - char_length country)
  else char_take MAXLEN country.

(** The numbering of [show], counted from one. *)
Definition iteration_column (i : nat) : string :=
  let iteration := str_of_nat (i + 1) in
  if (String.length iteration =? 3)%nat then iteration
  else spaces (3 - String.length iteration) +:+ iteration.

Definition show_line (i : nat) (b : blob) (country : string) : string :=
  " " +:+ iteration_column i +:+ ". " +:+ country_column country
  +:+ " (" +:+ name b +:+ ")".

Definition default_regex : string := "\d{4}-\d{2}-\d{2}_.+".

Definition country_regex (country_code : string) : string :=
  "\d{4}-\d{2}-\d{2}_" +:+ country_code +:+ "_.+".

Definition extension_of (svg : bool) : string := if svg then "svg" else "pdf".

(** The file [_download] opens for a blob. *)
Definition download_path (svg : bool) (country : string) : string :=
  extension_of svg +:+ "s/" +:+ country +:+ "." +:+ extension_of svg.

Section Client.

(** [client.list_blobs(bucket)], [re.match(pattern, text)] read for its
    truth value, and the bytes [client.download_blob_to_file] fetches. *)
Variable list_blobs : string -> Cmd (list blob).
Variable re_match : string -> string -> res bool.
Variable fetch : blob -> res string.

Fixpoint filter_match (pattern : string) (bs : list blob) : res (list blob) :=
  match bs with
  | [] => Val []
  | b :: bs' =>
      match re_match pattern (name b) with
      | Err e => Err e
      | Val m =>
          match filter_match pattern bs' with
          | Err e => Err e
          | Val rest => Val (if m then b :: rest else rest)
          end
      end
  end.

Definition get (filetype regex : string) : Cmd (list blob) :=
  let? blobs := list_blobs SVG_BUCKET in
  lift (filter_match (filetype +:+ "/" +:+ regex) blobs).

Fixpoint show_from (i : nat) (blobs : list blob) (svg : bool) : Cmd unit :=
  match blobs with
  | [] => ret tt
  | b :: blobs' =>
      let? country := lift (get_country b svg) in
      let? _ := print (show_line i b country) in
      show_from (S i) blobs' svg
  end.

Definition show (filetype : string) (svg : bool) : Cmd unit :=
  let? blobs := get filetype default_regex in
  let? _ := print "Available countries:" in
  show_from 0 blobs svg.

Definition svg_command : Cmd unit := show "SVG" true.

Definition pdf_command : Cmd unit := show "PDF" false.

Fixpoint download_each (blobs : list blob) (svg : bool) : Cmd unit :=
  match blobs with
  | [] => ret tt
  | b :: blobs' =>
      let? country := lift (get_country b svg) in
      let? _ := emit (Open (download_path svg country)) in
      let? data := lift (fetch b) in
      let? _ := emit (Write (download_path svg country) data) in
      download_each blobs' svg
  end.

(** The inner [_download] of [download]. *)
Definition download_blobs (country_code : string) (blobs : list blob)
    (svg : bool) : Cmd unit :=
  match blobs with
  | [] => print ("Could not find a " +:+ extension_of svg
                 +:+ " file for code " +:+ country_code)
  | _ =>
      let? _ := download_each blobs svg in
      print ("Download " +:+ country_code +:+ " " +:+ extension_of svg
             +:+ " complete. Saved to /" +:+ extension_of svg +:+ "s")
  end.

Definition download (country_code : string) (svg pdf : bool) : Cmd unit :=
  let? _ :=
    if svg then
      let? blobs := get "SVG" (country_regex country_code) in
      download_blobs country_code blobs true
    else ret tt in
  if pdf then
    let? blobs := get "PDF" (country_regex country_code) in
    download_blobs country_code blobs false
  else ret tt.

End Client.

(** The files after a run: opening for writing empties the file, writing
    appends to it. *)
Definition file_event (fs : gmap string string) (e : event)
  : gmap string string :=
  match e with
  | Say _ => fs
  | Open p => <[p := EmptyString]> fs
  | Write p d => <[p := default EmptyString (fs !! p) +:+ d]> fs
  end.

Definition files_after (l : list event) (fs : gmap string string)
  : gmap string string :=
  fold_left file_event l fs.


(** The lines [show] prints for the blobs, numbered from [i]. *)
Fixpoint listing (i : nat) (country : blob -> string) (blobs : list blob)
  : list event :=
  match blobs with
  | [] => []
  | b :: blobs' => Say (show_line i b (country b)) :: listing (S i) country blobs'
  end.

(** What [_download] leaves for one blob. *)
Definition saved (svg : bool) (country data : blob -> string) (b : blob)
  : list event :=
  [Open (download_path svg (country b)); Write (download_path svg (country b)) (data b)].

(** A bucket with two reports of one country, and a matcher that accepts
    every name. *)
Definition sample_blobs : list blob :=
  [mkBlob "SVG/2020-03-29_GB_Mobility_Report_en.svg" "first";
   mkBlob "SVG/2020-04-05_GB_Mobility_Report_en.svg" "second"].

Definition sample_list_blobs (bucket : string) : Cmd (list blob) :=
  ret sample_blobs.

Definition accept_all (pattern text : string) : res bool := Val true.

Definition sample_fetch (b : blob) : res string := Val (content b).

End Bucket.

(** * Properties

    ** Keys, joins and columns *)

Lemma cell_eqb_refl c : cell_eqb c c = true.
Proof.
  destruct c as [|q|s|b]; cbn; auto.
  - apply Qeq_bool_iff. reflexivity.
  - apply String.eqb_refl.
  - destruct b; reflexivity.
Qed.

Lemma cell_eqb_sym a b : cell_eqb a b = cell_eqb b a.
Proof.
  destruct a as [|p|s|x], b as [|q|t|y]; cbn; auto.
  - destruct (Qeq_bool p q) eqn:E1, (Qeq_bool q p) eqn:E2; auto.
    + apply Qeq_bool_iff in E1. symmetry in E1. apply Qeq_bool_iff in E1. congruence.
    + apply Qeq_bool_iff in E2. symmetry in E2. apply Qeq_bool_iff in E2. congruence.
  - apply String.eqb_sym.
  - destruct x, y; reflexivity.
Qed.

Lemma cell_eqb_trans a b c :
  cell_eqb a b = true -> cell_eqb b c = true -> cell_eqb a c = true.
Proof.
  destruct a as [|p|s|x], b as [|q|t|y], c as [|r|u|z]; cbn; try congruence.
  - rewrite !Qeq_bool_iff. intros H1 H2. now rewrite H1.
  - rewrite !String.eqb_eq. congruence.
  - destruct x, y, z; auto.
Qed.

Lemma first_seen_sound k ks : In k (first_seen ks) -> In k ks.
Proof.
  induction ks as [|k0 ks IH]; cbn [first_seen In]; [tauto|].
  intros [->|H]; [now left|]. apply filter_In in H as [H _]. auto.
Qed.

Lemma first_seen_covers k0 ks :
  In k0 ks -> exists k, In k (first_seen ks) /\ cell_eqb k0 k = true.
Proof.
  induction ks as [|k1 ks IH]; cbn [first_seen In]; [tauto|].
  intros [->|H].
  - exists k0. split; [now left|apply cell_eqb_refl].
  - destruct (IH H) as (k & Hk & Ek).
    destruct (cell_eqb k1 k) eqn:E.
    + exists k1. split; [now left|].
      eapply cell_eqb_trans; [exact Ek|]. now rewrite cell_eqb_sym.
    + exists k. split; [|exact Ek]. right. apply filter_In. now rewrite E.
Qed.

Lemma ForallOrdPairs_filter {A} (R : A -> A -> Prop) (p : A -> bool) l :
  ForallOrdPairs R l -> ForallOrdPairs R (List.filter p l).
Proof.
  induction 1 as [|a l Ha H IH]; cbn [List.filter]; [constructor|].
  destruct (p a); [|exact IH]. constructor; [|exact IH].
  apply List.Forall_forall. intros x Hx. apply filter_In in Hx as [Hx _].
  rewrite List.Forall_forall in Ha. auto.
Qed.

Lemma first_seen_distinct ks :
  ForallOrdPairs (fun a b => cell_eqb a b = false) (first_seen ks).
Proof.
  induction ks as [|k ks IH]; cbn [first_seen]; constructor.
  - apply List.Forall_forall. intros x Hx. apply filter_In in Hx as [_ Hx].
    now apply negb_true_iff in Hx.
  - now apply ForallOrdPairs_filter.
Qed.

Lemma isna_true c : isna c = true -> c = NaN.
Proof. now destruct c. Qed.

Lemma join_keys_covers lk rk k0 :
  In k0 (lk ++ rk) -> exists k, In k (join_keys lk rk) /\ cell_eqb k0 k = true.
Proof.
  intros H. unfold join_keys. destruct (isna k0) eqn:E.
  - apply isna_true in E as ->. exists NaN. split; [|reflexivity].
    apply in_or_app. right.
    assert (Hex : existsb isna (lk ++ rk) = true)
      by (apply existsb_exists; exists NaN; auto).
    rewrite Hex. now left.
  - destruct (first_seen_covers k0 (List.filter (fun k => negb (isna k)) (lk ++ rk)))
      as (k & Hk & Ek).
    + apply filter_In. now rewrite E.
    + exists k. split; [|exact Ek]. apply in_or_app. now left.
Qed.

Lemma ForallOrdPairs_app {A} (R : A -> A -> Prop) l1 l2 :
  ForallOrdPairs R l1 -> ForallOrdPairs R l2 ->
  (forall a b, In a l1 -> In b l2 -> R a b) ->
  ForallOrdPairs R (l1 ++ l2).
Proof.
  intros H1 H2 H. induction H1 as [|a l1 Ha H1 IH]; cbn [app]; [exact H2|].
  constructor.
  - apply Forall_app. split; [exact Ha|].
    apply List.Forall_forall. intros b Hb. apply H; [now left|exact Hb].
  - apply IH. intros x y Hx Hy. apply H; [now right|exact Hy].
Qed.

Lemma join_keys_distinct lk rk :
  ForallOrdPairs (fun a b => cell_eqb a b = false) (join_keys lk rk).
Proof.
  unfold join_keys. apply ForallOrdPairs_app.
  - apply first_seen_distinct.
  - destruct (existsb isna (lk ++ rk)); repeat constructor.
  - intros a b Ha Hb. apply first_seen_sound, filter_In in Ha as [_ Ha].
    destruct (existsb isna (lk ++ rk)); [|destruct Hb].
    destruct Hb as [<-|[]]. now destruct a.
Qed.

Lemma filter_nil_iff {A} (p : A -> bool) (l : list A) :
  List.filter p l = [] <-> forall a, In a l -> p a = false.
Proof.
  induction l as [|a l IH]; cbn.
  - tauto.
  - destruct (p a) eqn:E; split.
    + discriminate.
    + intros H. specialize (H a (or_introl eq_refl)). congruence.
    + intros H b [<-|Hb]; [exact E|]. now apply IH.
    + intros H. apply IH. intros b Hb. apply H. now right.
Qed.

(** One stage of a computation that got through: name the value of the
    stage in front and drop the case in which it raised. *)
Ltac stage H x E :=
  match type of H with
  | rbind ?t _ = Ok _ =>
      destruct t as [x|] eqn:E; cbn [rbind] in H; [|discriminate]
  end.

Lemma rmap_ok {A B} (g : A -> result B) l l' :
  rmap g l = Ok l' -> Forall2 (fun a b => g a = Ok b) l l'.
Proof.
  revert l'. induction l as [|a l IH]; cbn; intros l' H.
  - injection H as <-. constructor.
  - destruct (g a) as [b|] eqn:E; cbn in H; [|discriminate].
    destruct (rmap g l) as [bs|]; cbn in H; [|discriminate].
    injection H as <-. constructor; auto.
Qed.

Lemma rmap_map_ok {A B C} (g : B -> result C) (h : A -> B) (d : C) l l' :
  rmap g (map h l) = Ok l' ->
  l' = map (fun a => match g (h a) with Ok c => c | Raise _ => d end) l /\
  Forall (fun a => exists c, g (h a) = Ok c) l.
Proof.
  revert l'. induction l as [|a l IH]; cbn; intros l' H.
  - injection H as <-. auto.
  - destruct (g (h a)) as [b|] eqn:E; cbn in H; [|discriminate].
    destruct (rmap g (map h l)) as [bs|]; cbn in H; [|discriminate].
    injection H as <-. destruct (IH _ eq_refl) as [-> HF]. split; [reflexivity|].
    constructor; eauto.
Qed.

Lemma bool_indexer_map_ok {A} (g : A -> option bool) l bs :
  bool_indexer (map g l) = Ok bs ->
  bs = map (fun a => match g a with Some b => b | None => false end) l /\
  Forall (fun a => exists b, g a = Some b) l.
Proof.
  revert bs. induction l as [|a l IH]; cbn; intros bs H.
  - injection H as <-. auto.
  - destruct (g a) as [b|] eqn:E; [|discriminate].
    destruct (bool_indexer (map g l)) as [bs'|]; cbn in H; [|discriminate].
    injection H as <-. destruct (IH _ eq_refl) as [-> HF]. split; [reflexivity|].
    constructor; eauto.
Qed.

Lemma zip_set_map (i : nat) {A} (g : A -> cell) (h : A -> row) l :
  zip_set i (map g l) (map h l) = map (fun a => set_at i (g a) (h a)) l.
Proof. induction l as [|a l IH]; cbn; [reflexivity|]. now rewrite IH. Qed.

Lemma map2_map {A B C D} (f : B -> C -> D) (g : A -> B) (h : A -> C) l :
  map2 f (map g l) (map h l) = map (fun a => f (g a) (h a)) l.
Proof. induction l as [|a l IH]; cbn; [reflexivity|]. now rewrite IH. Qed.

Lemma cell_at_set_at i c r :
  cell_at i (set_at i c r) = if (i <? length r)%nat then c else NaN.
Proof.
  unfold cell_at. revert i. induction r as [|x r IH]; intros [|i]; cbn; auto.
Qed.

Lemma set_at_set_at i c c' r : set_at i c (set_at i c' r) = set_at i c r.
Proof.
  revert i. induction r as [|x r IH]; intros [|i]; cbn; auto. now rewrite IH.
Qed.

Lemma length_set_at i c r : length (set_at i c r) = length r.
Proof.
  revert i. induction r as [|x r IH]; intros [|i]; cbn; auto.
Qed.

Lemma attr_ok name df i :
  col_index name (columns df) = Some i ->
  attr name df = Ok (map (cell_at i) (rows df)).
Proof. intros H. unfold attr, get_col. now rewrite H. Qed.

Lemma attr_index name df c :
  attr name df = Ok c -> exists i, col_index name (columns df) = Some i.
Proof.
  unfold attr, get_col. destruct (col_index name (columns df)); [eauto|discriminate].
Qed.

Lemma attr_mk name cols rs i :
  col_index name cols = Some i ->
  attr name (mkDF cols rs) = Ok (map (cell_at i) rs).
Proof. intros H. now apply attr_ok. Qed.

Lemma set_col_mk name cols rs i (g : row -> cell) :
  col_index name cols = Some i ->
  set_col name (map g rs) (mkDF cols rs)
  = Ok (mkDF cols (map (fun r => set_at i (g r) r) rs)).
Proof.
  intros H. unfold set_col. cbn [columns rows]. rewrite H.
  rewrite <- (map_id rs) at 2. rewrite zip_set_map. reflexivity.
Qed.

Lemma loc_set_mk name cols rs i (g : row -> option bool) v d :
  col_index name cols = Some i ->
  loc_set (map g rs) name v (mkDF cols rs) = Ok d ->
  d = mkDF cols (map (fun r => set_at i (if mask_bit (g r) then v else cell_at i r) r) rs)
  /\ Forall (fun r => exists b, g r = Some b) rs.
Proof.
  intros Hi H. unfold loc_set in H.
  stage H bs Hb.
  apply bool_indexer_map_ok in Hb as [-> HF]. split; [|exact HF].
  unfold get_col in H. cbn [columns rows] in H. rewrite Hi in H. cbn [rbind] in H.
  rewrite map2_map in H.
  rewrite (set_col_mk _ _ _ _ (fun r => if mask_bit (g r) then v else cell_at i r) Hi) in H.
  now injection H as <-.
Qed.

Lemma str_accessor_ok col h : str_accessor col = Ok h -> h = col.
Proof.
  unfold str_accessor.
  destruct (existsb is_text col || no_rows col); [|discriminate].
  now intros [= <-].
Qed.

Lemma str_accessor_texts {A} (g : A -> cell) l :
  Forall (fun a => exists text, g a = Str text) l ->
  str_accessor (map g l) = Ok (map g l).
Proof.
  intros H. unfold str_accessor. destruct H as [|a l [text Ha] H]; [reflexivity|].
  cbn [map existsb]. now rewrite Ha.
Qed.

Section Normalise.
Variable f : string -> option (option Q).

Lemma normalise_headline_rows df df1 :
  normalise_headline f df = Ok df1 ->
  exists i, col_index "headline" (columns df) = Some i /\
    columns df1 = columns df /\
    rows df1 = map (normalise_row f i) (rows df) /\
    Forall (fun r => exists text c, cell_at i r = Str text /\
                       normalise_text f text = Ok c /\
                       cell_at i (normalise_row f i r) = c) (rows df).
Proof.
  destruct df as [cols rs]. unfold normalise_headline. intros H.
  stage H h Ha.
  destruct (attr_index _ _ _ Ha) as [i Hi]. exists i. split; [exact Hi|].
  cbn [columns rows] in *.
  rewrite (attr_mk _ _ _ _ Hi) in Ha. injection Ha as <-.
  stage H h1 Hacc. apply str_accessor_ok in Hacc as ->.
  rewrite map_map in H. rewrite (set_col_mk _ _ _ _ _ Hi) in H. cbn [rbind] in H.
  remember (map (fun r => set_at i (str_replace_percent (cell_at i r)) r) rs) as rsa eqn:Hrsa.
  rewrite (attr_mk _ _ _ _ Hi) in H. cbn [rbind] in H.
  stage H h2 Hacc. apply str_accessor_ok in Hacc as ->. rewrite map_map in H.
  stage H d Hl.
  apply (loc_set_mk _ _ _ _ _ _ _ Hi) in Hl as [-> HF1].
  remember (map _ rsa) as rsb eqn:Hrsb in H.
  rewrite (attr_mk _ _ _ _ Hi) in H. cbn [rbind] in H.
  stage H h3 Hc.
  apply (rmap_map_ok _ _ NaN) in Hc as [-> HF2].
  rewrite (set_col_mk _ _ _ _ _ Hi) in H.
  injection H as <-. cbn [columns rows]. split; [reflexivity|].
  subst rsb rsa. rewrite !map_map. rewrite !Forall_map in HF2. rewrite Forall_map in HF1.
  rewrite List.Forall_forall in HF1, HF2.
  match goal with |- map ?F rs = _ /\ _ =>
  assert (Hrow : forall r, In r rs ->
    F r = normalise_row f i r /\
    exists text c, cell_at i r = Str text /\ normalise_text f text = Ok c /\
                   cell_at i (normalise_row f i r) = c) end;
    [|split; [apply map_ext_in; intros r Hr; apply (Hrow r Hr)
             |apply List.Forall_forall; intros r Hr; apply (Hrow r Hr)]].
  intros r Hr. specialize (HF1 r Hr). specialize (HF2 r Hr). cbn beta.
  unfold normalise_row, normalise_cell, normalise_text.
  rewrite !set_at_set_at. rewrite !cell_at_set_at in *. rewrite ?length_set_at in *.
  destruct (i <? length r)%nat eqn:Hlen.
  2:{ destruct HF1 as [b Hb]. discriminate. }
  destruct (cell_at i r) as [|q|s|b] eqn:Hc; cbn in HF1;
    try (destruct HF1 as [? HF1]; discriminate).
  cbn in *. destruct (contains sentinel (remove_percent s)) eqn:Hs.
  - split; [reflexivity|]. exists s, NaN. now rewrite Hs.
  - cbn in *. destruct (f (remove_percent s)) as [v|] eqn:Hv.
    + split; [reflexivity|]. exists s, (float_cell v). now rewrite Hs, Hv.
    + destruct HF2 as [? HF2]. discriminate.
Qed.
End Normalise.

Lemma cell_at_set_at_ne i j c r : i <> j -> cell_at i (set_at j c r) = cell_at i r.
Proof.
  unfold cell_at. revert i j. induction r as [|x r IH]; intros [|i] [|j] H; cbn; auto.
  congruence.
Qed.

Lemma bool_indexer_map_total {A} (g : A -> option bool) l :
  Forall (fun a => exists b, g a = Some b) l ->
  bool_indexer (map g l) = Ok (map (fun a => mask_bit (g a)) l).
Proof.
  induction 1 as [|a l [b Hb] _ IH]; cbn; [reflexivity|].
  rewrite Hb, IH. reflexivity.
Qed.


Lemma cell_at_text_length i r text :
  cell_at i r = Str text -> (i <? length r)%nat = true.
Proof.
  intros Hc. destruct (i <? length r)%nat eqn:E; [reflexivity|].
  apply Nat.ltb_ge in E. unfold cell_at in Hc.
  rewrite nth_overflow in Hc by exact E. discriminate.
Qed.

(** On a headline column of texts the accessor and the mask go through,
    and the conversion to numbers decides. *)
Lemma normalise_headline_texts f cols rs i :
  col_index "headline" cols = Some i ->
  Forall (fun r => exists text, cell_at i r = Str text) rs ->
  normalise_headline f (mkDF cols rs)
  = rbind (rmap (astype_float f) (map (fun r => strip_cell (cell_at i r)) rs))
          (fun h => Ok (mkDF cols
                          (zip_set i h
                             (map (fun r => set_at i (strip_cell (cell_at i r)) r) rs)))).
Proof.
  intros Hi HF. unfold normalise_headline.
  rewrite (attr_mk _ _ _ _ Hi). cbn [rbind].
  rewrite (str_accessor_texts _ _ HF). cbn [rbind].
  rewrite map_map, (set_col_mk _ _ _ _ _ Hi). cbn [rbind].
  rewrite (attr_mk _ _ _ _ Hi). cbn [rbind]. rewrite map_map.
  assert (HF1 : Forall (fun r => exists text,
                          cell_at i (set_at i (str_replace_percent (cell_at i r)) r)
                          = Str text) rs).
  { revert HF. apply List.Forall_impl. intros r (text & Hc).
    rewrite cell_at_set_at, (cell_at_text_length i r text Hc), Hc. cbn. eauto. }
  rewrite (str_accessor_texts _ _ HF1). cbn [rbind]. rewrite map_map.
  unfold loc_set. rewrite bool_indexer_map_total.
  2:{ revert HF1. apply List.Forall_impl. intros r (text & ->). cbn. eauto. }
  cbn [rbind]. unfold get_col. cbn [columns rows]. rewrite Hi. cbn [rbind].
  rewrite map_map.
  assert (E : forall r, In r rs ->
            (if mask_bit (str_contains sentinel
                            (cell_at i (set_at i (str_replace_percent (cell_at i r)) r)))
             then NaN
             else cell_at i (set_at i (str_replace_percent (cell_at i r)) r))
            = strip_cell (cell_at i r)).
  { intros r Hr. rewrite List.Forall_forall in HF. destruct (HF r Hr) as (text & Hc).
    rewrite cell_at_set_at, (cell_at_text_length i r text Hc), Hc.
    cbn. now destruct (contains sentinel (remove_percent text)). }
  rewrite map2_map, (map_ext_in _ _ rs E).
  unfold set_col. cbn [columns rows]. rewrite Hi. cbn [rbind].
  rewrite zip_set_map.
  rewrite (map_ext_in _ (fun r => set_at i (strip_cell (cell_at i r)) r) rs)
    by (intros r Hr; apply set_at_set_at).
  unfold attr, get_col. cbn [columns rows]. rewrite Hi. cbn [rbind].
  rewrite map_map.
  rewrite (map_ext_in _ (fun r => strip_cell (cell_at i r)) rs).
  2:{ intros r Hr. rewrite List.Forall_forall in HF. destruct (HF r Hr) as (text & Hc).
      now rewrite cell_at_set_at, (cell_at_text_length i r text Hc). }
  reflexivity.
Qed.

Section NormaliseTotal.
Variable f : string -> option (option Q).

End NormaliseTotal.



Section Tail.
Variable key : row -> list cell.


End Tail.






Section TailGroups.
Variable key : row -> list cell.


End TailGroups.

Lemma cell_eqb_right a k k' :
  cell_eqb k k' = true -> cell_eqb a k' = cell_eqb a k.
Proof.
  intros E. destruct (cell_eqb a k) eqn:E1.
  - eapply cell_eqb_trans; eassumption.
  - destruct (cell_eqb a k') eqn:E2; [|reflexivity].
    rewrite <- E1. symmetry. eapply cell_eqb_trans; [exact E2|].
    now rewrite cell_eqb_sym.
Qed.

Lemma filter_pointwise {A} (p q : A -> bool) l :
  (forall a, p a = q a) -> List.filter p l = List.filter q l.
Proof.
  intros E. induction l as [|a l IH]; cbn; [reflexivity|]. now rewrite E, IH.
Qed.



Lemma select_rows names df F :
  select names df = Ok F ->
  columns F = names /\
  rows F = map (fun r => map (fun n => field df n r) names) (rows df) /\
  Forall (fun n => exists i, col_index n (columns df) = Some i) names.
Proof.
  unfold select. intros H.
  stage H idx E.
  injection H as <-. cbn [columns rows]. split; [reflexivity|].
  apply rmap_ok in E.
  assert (Hidx : forall r, map (fun i => cell_at i r) idx = map (fun n => field df n r) names
          ) .
  { intros r. induction E as [|n i names idx Hn E IH]; cbn; [reflexivity|].
    rewrite IH. unfold field. destruct (col_index n (columns df)); [|discriminate].
    injection Hn as ->. reflexivity. }
  split.
  - apply map_ext. exact Hidx.
  - clear Hidx. induction E as [|n i names idx Hn E IH]; [constructor|].
    constructor; [|exact IH].
    destruct (col_index n (columns df)); [eauto|discriminate].
Qed.

(** ** Commands *)

Lemma bind_Ok {A B} (a : A) (l : list event) (k : A -> M B) :
  bind (Ok a, l) k = (outcome (k a), l ++ log (k a)).
Proof. unfold bind, outcome, log. now destruct (k a). Qed.

Lemma bind_Raise {A B} (e : exn) (l : list event) (k : A -> M B) :
  bind (Raise e, l) k = (Raise e, l).
Proof. reflexivity. Qed.

Lemma bind_lift {A B} (a : A) (k : A -> M B) : bind (lift (Ok a)) k = k a.
Proof. unfold lift. rewrite bind_Ok. now destruct (k a). Qed.

Lemma bind_emit {B} (e : event) (k : unit -> M B) :
  bind (emit e) k = (outcome (k tt), e :: log (k tt)).
Proof. unfold emit. now rewrite bind_Ok. Qed.

Lemma mapM_ext {A B} (g h : A -> M B) l :
  (forall a, g a = h a) -> mapM g l = mapM h l.
Proof.
  intros E. induction l as [|a l IH]; cbn; [reflexivity|].
  rewrite E, IH. reflexivity.
Qed.

(** ** Groups *)





(** ** The run of [validate] *)

Section ValidateRun.
Variable f : string -> option (option Q).


End ValidateRun.

(** ** The run of [knit] and [proc] *)

Section KnitRun.
Variable f : string -> option (option Q).
Variables Paths ChartNum : Type.
Variable summarise : string -> M DataFrame.
Variable graph_process :
  string -> option string -> bool -> M (list (ChartNum * Paths)).
Variable read_csv : string -> M DataFrame.
Variable csv_process :
  Paths -> ChartNum -> DataFrame -> string -> bool -> bool -> M DataFrame.
Variable prep_output_folder : string -> string -> option string -> M string.
Variables input_pdf input_svg output_folder dates_file : string.

Let run : M unit :=
  knit f Paths ChartNum summarise graph_process read_csv csv_process
       input_pdf input_svg output_folder dates_file.

Let greeting : event :=
  Print ("Knitting " +:+ input_pdf +:+ " and " +:+ input_svg
         +:+ " data together").

Let tabulate (d : DataFrame) (item : ChartNum * Paths) : M DataFrame :=
  csv_process (snd item) (fst item) d output_folder false true.

Lemma knit_summarise_fails e ev :
  summarise input_pdf = (Raise e, ev) ->
  run = (Raise e, greeting :: ev).
Proof.
  intros H. unfold run, knit, print. rewrite bind_emit, H. reflexivity.
Qed.

Lemma knit_graph_process_fails s e1 e ev :
  summarise input_pdf = (Ok s, e1) ->
  graph_process input_svg None false = (Raise e, ev) ->
  run = (Raise e,
         greeting :: e1
         ++ ToCsv (summary_path input_pdf output_folder)
                  (mkCsv (columns s) (rows s)) :: ev).
Proof.
  intros H1 H2. unfold run, knit, print, to_csv.
  rewrite bind_emit, H1, bind_Ok, bind_emit, H2. reflexivity.
Qed.

Lemma knit_read_csv_fails s e1 data e2 e ev :
  summarise input_pdf = (Ok s, e1) ->
  graph_process input_svg None false = (Ok data, e2) ->
  read_csv dates_file = (Raise e, ev) ->
  run = (Raise e,
         greeting :: e1
         ++ ToCsv (summary_path input_pdf output_folder)
                  (mkCsv (columns s) (rows s)) :: e2 ++ ev).
Proof.
  intros H1 H2 H3. unfold run, knit, print, to_csv.
  rewrite bind_emit, H1, bind_Ok, bind_emit, H2, bind_Ok, H3. reflexivity.
Qed.

Lemma knit_run s e1 data e2 d e3 dfs e4 plot merged final :
  summarise input_pdf = (Ok s, e1) ->
  graph_process input_svg None false = (Ok data, e2) ->
  read_csv dates_file = (Ok d, e3) ->
  mapM (tabulate d) data = (Ok dfs, e4) ->
  concat dfs = Ok plot ->
  merge_outer s plot "plot_num" "graph_num" = Ok merged ->
  select final_columns merged = Ok final ->
  run = (outcome (validate f final),
         greeting :: e1
         ++ ToCsv (summary_path input_pdf output_folder)
                  (mkCsv (columns s) (rows s))
            :: e2 ++ e3 ++ e4
         ++ ToCsv (final_path input_pdf output_folder)
                  (mkCsv (columns final) (rows final))
            :: log (validate f final)).
Proof.
  intros H1 H2 H3 H4 H5 H6 H7. unfold run, knit, print, to_csv.
  rewrite bind_emit, H1, bind_Ok, bind_emit, H2, bind_Ok, H3, bind_Ok.
  unfold tabulate in H4. rewrite H4, bind_Ok, H5, bind_lift, H6, bind_lift.
  rewrite H7, bind_lift, bind_emit. reflexivity.
Qed.

Variables input_location : string.
Variable folder : option string.
Variables svgs plots : bool.

Let run_proc : M (list DataFrame) :=
  proc Paths ChartNum graph_process read_csv csv_process prep_output_folder
       input_location output_folder folder dates_file svgs plots.

Lemma proc_read_csv_fails e ev :
  read_csv dates_file = (Raise e, ev) -> run_proc = (Raise e, ev).
Proof. intros H. unfold run_proc, proc. now rewrite H. Qed.

Lemma proc_graph_process_fails d e1 out e2 e ev :
  read_csv dates_file = (Ok d, e1) ->
  prep_output_folder input_location output_folder folder = (Ok out, e2) ->
  graph_process input_location (Some out) svgs = (Raise e, ev) ->
  run_proc = (Raise e, e1 ++ Print ("Processing " +:+ input_location) :: e2 ++ ev).
Proof.
  intros H1 H2 H3. unfold run_proc, proc, print.
  rewrite H1, bind_Ok, bind_emit, H2, bind_Ok, H3. reflexivity.
Qed.
End KnitRun.

(** ** Files *)



(** ** Texts *)

Lemma prefix_remove_percent pat s :
  has_char percent pat = false ->
  String.prefix pat s = true ->
  String.prefix pat (remove_percent s) = true.
Proof.
  revert s. induction pat as [|a pat IH]; intros s Hp H; [now destruct (remove_percent s)|].
  cbn in Hp. apply orb_false_iff in Hp as [Ha Hp].
  destruct s as [|b s]; cbn in H; [discriminate|].
  destruct (ascii_dec a b) as [<-|]; [|discriminate].
  cbn. rewrite Ha. cbn. destruct (ascii_dec a a); [|congruence]. now apply IH.
Qed.

Lemma contains_remove_percent pat s :
  has_char percent pat = false ->
  contains pat s = true ->
  contains pat (remove_percent s) = true.
Proof.
  intros Hp. induction s as [|b s IH]; intros H.
  - exact H.
  - cbn [contains] in H. apply orb_true_iff in H as [H|H].
    + apply (prefix_remove_percent _ _ Hp) in H.
      destruct (remove_percent (String b s)); cbn [contains]; now rewrite H.
    + specialize (IH H). cbn [remove_percent].
      destruct (Ascii.eqb b percent); [exact IH|].
      cbn [contains]. rewrite IH. apply orb_true_r.
Qed.

(** ** Rounding *)




(** The rounded value is never further than one half from the value. *)
Lemma round_half_even_nearest (q : Q) :
  (q - (1 # 2) <= inject_Z (round_half_even q) <= q + (1 # 2))%Q.
Proof.
  unfold round_half_even.
  pose proof (Qfloor_le q) as Hlo. pose proof (Qlt_floor q) as Hhi.
  rewrite inject_Z_plus in Hhi. change (inject_Z 1) with 1%Q in Hhi.
  set (fl := Qfloor q) in *.
  destruct (q - inject_Z fl ?= 1 # 2)%Q eqn:E.
  - apply Qeq_alt in E.
    destruct (Z.even fl); [|rewrite inject_Z_plus; change (inject_Z 1) with 1%Q]; lra.
  - apply Qlt_alt in E. lra.
  - apply Qgt_alt in E. rewrite inject_Z_plus. change (inject_Z 1) with 1%Q. lra.
Qed.

(** * The claims *)

(** C3.  In the table [validate] works on, a headline text that carries the
    sentinel becomes the missing marker, which is not the number zero;
    every other text becomes the number its percentage reads as. *)
Theorem sentinel_headline_is_missing
    (f : string -> option (option Q)) (df df1 : DataFrame) :
  normalise_headline f df = Ok df1 ->
  exists i,
    col_index "headline" (columns df) = Some i /\
    Forall2 (fun r r1 =>
               forall text, cell_at i r = Str text ->
                 (contains sentinel text = true ->
                  cell_at i r1 = NaN /\ cell_at i r1 <> Num 0) /\
                 (contains sentinel (remove_percent text) = false ->
                  exists v, f (remove_percent text) = Some v /\
                            cell_at i r1 = float_cell v))
            (rows df) (rows df1).
Proof.
  intros H.
  destruct (normalise_headline_rows f df df1 H) as (i & Hi & _ & Hr & HF).
  exists i. split; [exact Hi|]. rewrite Hr. clear Hr H.
  induction HF as [|r rs (text & c & Ht & Hn & Hc) HF IH]; cbn [map];
    constructor; [|exact IH].
  intros text' Ht'. rewrite Ht in Ht'. injection Ht' as <-.
  rewrite Hc. unfold normalise_text in Hn.
  split.
  - intros Hs. apply (contains_remove_percent sentinel) in Hs; [|reflexivity].
    rewrite Hs in Hn. injection Hn as <-. split; [reflexivity|discriminate].
  - intros Hs. rewrite Hs in Hn.
    destruct (f (remove_percent text)) as [v|]; [|discriminate].
    injection Hn as <-. eauto.
Qed.

Lemma sentinel_headline_is_missing_witness :
  normalise_headline decimal_float (sample_table "12%" (124 # 10))
  = Ok (mkDF final_columns
          (map (normalise_row decimal_float 8)
               (rows (sample_table "12%" (124 # 10))))) /\
  exists i,
    col_index "headline" (columns (sample_table "12%" (124 # 10))) = Some i /\
    Forall2 (fun r r1 =>
               forall text, cell_at i r = Str text ->
                 (contains sentinel text = true ->
                  cell_at i r1 = NaN /\ cell_at i r1 <> Num 0) /\
                 (contains sentinel (remove_percent text) = false ->
                  exists v, decimal_float (remove_percent text) = Some v /\
                            cell_at i r1 = float_cell v))
            (rows (sample_table "12%" (124 # 10)))
            (map (normalise_row decimal_float 8)
                 (rows (sample_table "12%" (124 # 10)))).
Proof.
  assert (H : normalise_headline decimal_float (sample_table "12%" (124 # 10))
              = Ok (mkDF final_columns
                      (map (normalise_row decimal_float 8)
                           (rows (sample_table "12%" (124 # 10))))))
    by (vm_compute; reflexivity).
  split; [exact H|].
  exact (sentinel_headline_is_missing decimal_float _ _ H).
Defined.










Section ValidateReport.
Variable f : string -> option (option Q).


End ValidateReport.























(** ** The outer join *)

Lemma flat_map_nil {A B} (l : list A) : flat_map (fun _ : A => @nil B) l = [].
Proof. induction l as [|a l IH]; cbn; auto. Qed.

Lemma flat_map_flat_map {A B C} (g : B -> list C) (h : A -> list B) l :
  flat_map g (flat_map h l) = flat_map (fun a => flat_map g (h a)) l.
Proof.
  induction l as [|a l IH]; cbn; [reflexivity|]. now rewrite flat_map_app, IH.
Qed.

Lemma flat_map_pointwise {A B} (g h : A -> list B) l :
  (forall a, In a l -> g a = h a) -> flat_map g l = flat_map h l.
Proof.
  induction l as [|a l IH]; intros H; cbn; [reflexivity|].
  rewrite (H a (or_introl eq_refl)), IH; [reflexivity|].
  intros x Hx. apply H. now right.
Qed.

Lemma map_filter_flat_map {A B} (g : A -> B) (p : A -> bool) l :
  map g (List.filter p l) = flat_map (fun a => if p a then [g a] else []) l.
Proof.
  induction l as [|a l IH]; cbn; [reflexivity|].
  destruct (p a); cbn; now rewrite IH.
Qed.

Lemma Permutation_flat_map_app {A B} (g h : A -> list B) l :
  Permutation (flat_map (fun a => g a ++ h a) l) (flat_map g l ++ flat_map h l).
Proof.
  induction l as [|a l IH]; cbn; [constructor|].
  rewrite IH, <- !app_assoc. apply Permutation_app_head.
  rewrite !app_assoc. apply Permutation_app_tail. apply Permutation_app_comm.
Qed.

Lemma join_group_parts lpad rpad ls rs :
  join_group lpad rpad ls rs
  = flat_map (fun l => map (fun r => l ++ r) rs) ls
    ++ (match rs with [] => map (fun l => l ++ rpad) ls | _ => [] end)
    ++ (match ls with [] => map (fun r => lpad ++ r) rs | _ => [] end).
Proof.
  destruct ls as [|l ls]; [now destruct rs|].
  destruct rs as [|r rs].
  - cbn [join_group map]. change (fun l0 : row => map (fun r => l0 ++ r) [])
      with (fun _ : row => @nil row).
    now rewrite flat_map_nil, app_nil_r.
  - cbn [join_group]. now rewrite !app_nil_r.
Qed.

Section Partition.
Variable A : Type.
Variable key : A -> cell.
Variable keys : list cell.
Hypothesis keys_distinct :
  ForallOrdPairs (fun a b => cell_eqb a b = false) keys.

Lemma one_key (c : cell) (out : list A) :
  (exists k, In k keys /\ cell_eqb c k = true) ->
  flat_map (fun k => if cell_eqb c k then out else []) keys = out.
Proof.
  revert keys_distinct. induction keys as [|k0 ks IH]; intros Hd (k & Hk & E).
  - destruct Hk.
  - inversion Hd as [|? ? H0 Hd']; subst. cbn [flat_map].
    destruct (cell_eqb c k0) eqn:E0.
    + rewrite (flat_map_pointwise _ (fun _ => [])), flat_map_nil, app_nil_r;
        [reflexivity|].
      intros k' Hk'. rewrite List.Forall_forall in H0.
      destruct (cell_eqb c k') eqn:E'; [|reflexivity]. exfalso.
      assert (Ek : cell_eqb k0 k' = true)
        by (eapply cell_eqb_trans; [|exact E']; now rewrite cell_eqb_sym).
      rewrite (H0 k' Hk') in Ek. discriminate.
    + cbn [app]. apply IH; [exact Hd'|].
      destruct Hk as [->|Hk]; [congruence|eauto].
Qed.

Lemma groups_partition (l : list A) :
  (forall a, In a l -> exists k, In k keys /\ cell_eqb (key a) k = true) ->
  Permutation (flat_map (fun k => List.filter (fun a => cell_eqb (key a) k) l) keys) l.
Proof.
  induction l as [|a l IH]; intros Hc.
  - cbn [List.filter]. now rewrite flat_map_nil.
  - rewrite (flat_map_pointwise _
               (fun k => (if cell_eqb (key a) k then [a] else [])
                         ++ List.filter (fun a => cell_eqb (key a) k) l))
      by (intros k _; cbn [List.filter]; now destruct (cell_eqb (key a) k)).
    rewrite Permutation_flat_map_app, one_key by (apply Hc; now left).
    cbn [app]. constructor. apply IH. intros x Hx. apply Hc. now right.
Qed.

End Partition.

Lemma merge_outer_is_outer_join L R lo ro i j D :
  col_index lo (columns L) = Some i ->
  col_index ro (columns R) = Some j ->
  merge_outer L R lo ro = Ok D ->
  columns D = add_suffix "_x" (columns R) (columns L)
              ++ add_suffix "_y" (columns L) (columns R) /\
  Permutation (rows D) (outer_join_rows i j L R).
Proof.
  intros Hi Hj. unfold merge_outer. rewrite Hi, Hj. cbv zeta.
  destruct (check_keys _ _) as [[]|]; [|discriminate]. cbn [rbind].
  intros [= <-]. cbn [columns rows]. split; [reflexivity|].
  set (keys := join_keys _ _).
  assert (Hd : ForallOrdPairs (fun a b => cell_eqb a b = false) keys)
    by apply join_keys_distinct.
  assert (Hl : forall l, In l (rows L) ->
                 exists k, In k keys /\ cell_eqb (cell_at i l) k = true).
  { intros l Hl. apply join_keys_covers, in_or_app. left. now apply in_map. }
  assert (Hr : forall r, In r (rows R) ->
                 exists k, In k keys /\ cell_eqb (cell_at j r) k = true).
  { intros r Hr. apply join_keys_covers, in_or_app. right. now apply in_map. }
  clearbody keys.
  rewrite (flat_map_pointwise _ _ keys (fun k _ => join_group_parts _ _ _ _)).
  rewrite Permutation_flat_map_app, Permutation_flat_map_app.
  unfold outer_join_rows.
  apply Permutation_app; [|apply Permutation_app].
  - (* pairings *)
    rewrite (flat_map_pointwise _
               (fun k => flat_map
                           (fun l => map (fun r => l ++ r)
                                         (List.filter (matches i j l) (rows R)))
                           (List.filter (fun l => cell_eqb (cell_at i l) k) (rows L)))).
    2:{ intros k _. apply flat_map_pointwise. intros l Hin.
        apply filter_In in Hin as [_ E]. f_equal.
        apply filter_pointwise. intros r. unfold matches.
        rewrite (cell_eqb_right _ _ _ E). apply cell_eqb_sym. }
    rewrite <- flat_map_flat_map. apply Permutation_flat_map.
    now apply groups_partition.
  - (* left rows without a right row *)
    rewrite map_filter_flat_map.
    rewrite (flat_map_pointwise _
               (fun k => flat_map
                           (fun l => if unmatched_left i j R l
                                     then [l ++ pad_of R] else [])
                           (List.filter (fun l => cell_eqb (cell_at i l) k) (rows L)))).
    2:{ intros k _.
        assert (Hsame : forall l, In l (List.filter (fun l => cell_eqb (cell_at i l) k) (rows L)) ->
                  List.filter (fun r => cell_eqb (cell_at j r) k) (rows R)
                  = List.filter (matches i j l) (rows R)).
        { intros l Hin. apply filter_In in Hin as [_ E].
          apply filter_pointwise. intros r. unfold matches.
          rewrite (cell_eqb_right _ _ _ E). apply cell_eqb_sym. }
        destruct (List.filter (fun r => cell_eqb (cell_at j r) k) (rows R))
          as [|r0 rs0] eqn:E.
        - rewrite <- (flat_map_pointwise (fun l => [l ++ pad_of R])).
          + clear. induction (List.filter _ (rows L)) as [|l ls IH]; cbn;
              [reflexivity|now rewrite IH].
          + intros l Hin. specialize (Hsame l Hin). symmetry in Hsame.
            rewrite filter_nil_iff in Hsame.
            assert (Hu : unmatched_left i j R l = true).
            { apply forallb_forall. intros r Hin'. now rewrite (Hsame r Hin'). }
            now rewrite Hu.
        - rewrite (flat_map_pointwise _ (fun _ => [])), flat_map_nil; [reflexivity|].
          intros l Hin. specialize (Hsame l Hin).
          assert (Hu : unmatched_left i j R l = false).
          { destruct (unmatched_left i j R l) eqn:Hu; [|reflexivity].
            unfold unmatched_left in Hu. rewrite forallb_forall in Hu.
            assert (Hin0 : In r0 (List.filter (matches i j l) (rows R)))
              by (rewrite <- Hsame; now left).
            apply filter_In in Hin0 as [Hin0 Hm].
            specialize (Hu r0 Hin0). rewrite Hm in Hu. discriminate. }
          now rewrite Hu. }
    rewrite <- flat_map_flat_map. apply Permutation_flat_map.
    now apply groups_partition.
  - (* right rows without a left row *)
    rewrite map_filter_flat_map.
    rewrite (flat_map_pointwise _
               (fun k => flat_map
                           (fun r => if unmatched_right i j L r
                                     then [pad_of L ++ r] else [])
                           (List.filter (fun r => cell_eqb (cell_at j r) k) (rows R)))).
    2:{ intros k _.
        assert (Hsame : forall r, In r (List.filter (fun r => cell_eqb (cell_at j r) k) (rows R)) ->
                  List.filter (fun l => cell_eqb (cell_at i l) k) (rows L)
                  = List.filter (fun l => matches i j l r) (rows L)).
        { intros r Hin. apply filter_In in Hin as [_ E].
          apply filter_pointwise. intros l. unfold matches.
          now apply cell_eqb_right. }
        destruct (List.filter (fun l => cell_eqb (cell_at i l) k) (rows L))
          as [|l0 ls0] eqn:E.
        - rewrite <- (flat_map_pointwise (fun r => [pad_of L ++ r])).
          + clear. induction (List.filter _ (rows R)) as [|r rs IH]; cbn;
              [reflexivity|now rewrite IH].
          + intros r Hin. specialize (Hsame r Hin). symmetry in Hsame.
            rewrite filter_nil_iff in Hsame.
            assert (Hu : unmatched_right i j L r = true).
            { apply forallb_forall. intros l Hin'. now rewrite (Hsame l Hin'). }
            now rewrite Hu.
        - rewrite (flat_map_pointwise _ (fun _ => [])), flat_map_nil; [reflexivity|].
          intros r Hin. specialize (Hsame r Hin).
          assert (Hu : unmatched_right i j L r = false).
          { destruct (unmatched_right i j L r) eqn:Hu; [|reflexivity].
            unfold unmatched_right in Hu. rewrite forallb_forall in Hu.
            assert (Hin0 : In l0 (List.filter (fun l => matches i j l r) (rows L)))
              by (rewrite <- Hsame; now left).
            apply filter_In in Hin0 as [Hin0 Hm].
            specialize (Hu l0 Hin0). rewrite Hm in Hu. discriminate. }
          now rewrite Hu. }
    rewrite <- flat_map_flat_map. apply Permutation_flat_map.
    now apply groups_partition.
Qed.

Section Join.
Variable f : string -> option (option Q).
Variables Paths ChartNum : Type.
Variable summarise : string -> M DataFrame.
Variable graph_process :
  string -> option string -> bool -> M (list (ChartNum * Paths)).
Variable read_csv : string -> M DataFrame.
Variable csv_process :
  Paths -> ChartNum -> DataFrame -> string -> bool -> bool -> M DataFrame.
Variables input_pdf input_svg output_folder dates_file : string.

(** C2.  The table [knit] writes as the final table is the full outer join
    of the summary table and the series table on [plot_num = graph_num],
    cut to the final columns: its records are those of the pairings of a
    summary row with the series rows of the same chart number, of the
    summary rows without such a series row over missing cells, and of the
    series rows without such a summary row under missing cells, each as
    often as it arises; so no row of either table is dropped. *)
Theorem merge_is_full_outer_join
    (s : DataFrame) (e1 : list event) (data : list (ChartNum * Paths))
    (e2 : list event) (d : DataFrame) (e3 : list event)
    (dfs : list DataFrame) (e4 : list event) (plot merged final : DataFrame) :
  summarise input_pdf = (Ok s, e1) ->
  graph_process input_svg None false = (Ok data, e2) ->
  read_csv dates_file = (Ok d, e3) ->
  mapM (fun item => csv_process (snd item) (fst item) d output_folder false true)
       data = (Ok dfs, e4) ->
  concat dfs = Ok plot ->
  merge_outer s plot "plot_num" "graph_num" = Ok merged ->
  select final_columns merged = Ok final ->
  exists i j joined,
    col_index "plot_num" (columns s) = Some i /\
    col_index "graph_num" (columns plot) = Some j /\
    Permutation joined (outer_join_rows i j s plot) /\
    In (ToCsv (final_path input_pdf output_folder)
              (mkCsv final_columns
                 (map (fun x =>
                         map (fun n =>
                                field (mkDF (add_suffix "_x" (columns plot) (columns s)
                                             ++ add_suffix "_y" (columns s) (columns plot))
                                            joined) n x)
                             final_columns)
                      joined)))
       (log (knit f Paths ChartNum summarise graph_process read_csv csv_process
                  input_pdf input_svg output_folder dates_file)) /\
    (forall l, In l (rows s) ->
       (forall r, In r (rows plot) -> matches i j l r = false) ->
       In (l ++ pad_of plot) joined) /\
    (forall r, In r (rows plot) ->
       (forall l, In l (rows s) -> matches i j l r = false) ->
       In (pad_of s ++ r) joined).
Proof.
  intros H1 H2 H3 H4 H5 H6 H7.
  assert (Hij : exists i j, col_index "plot_num" (columns s) = Some i /\
                            col_index "graph_num" (columns plot) = Some j).
  { unfold merge_outer in H6.
    destruct (col_index "plot_num" (columns s)) as [i|]; [|discriminate].
    destruct (col_index "graph_num" (columns plot)) as [j|]; [|discriminate].
    eauto. }
  destruct Hij as (i & j & Hi & Hj).
  destruct (merge_outer_is_outer_join s plot _ _ i j merged Hi Hj H6) as [Hc Hp].
  exists i, j, (rows merged). split; [exact Hi|]. split; [exact Hj|].
  split; [exact Hp|].
  destruct (select_rows _ _ _ H7) as (Hcf & Hrf & _).
  split; [|split].
  - rewrite (knit_run f Paths ChartNum summarise graph_process read_csv csv_process
               input_pdf input_svg output_folder dates_file
               s e1 data e2 d e3 dfs e4 plot merged final H1 H2 H3 H4 H5 H6 H7).
    unfold log. cbn [snd]. right. apply in_or_app. right. right.
    apply in_or_app. right. apply in_or_app. right. apply in_or_app. right.
    left. rewrite Hcf, Hrf. f_equal. f_equal. apply map_ext. intros x.
    apply map_ext. intros n. unfold field. cbn [columns]. now rewrite Hc.
  - intros l Hl Hno. apply (Permutation_in _ (Permutation_sym Hp)).
    unfold outer_join_rows. apply in_or_app. right. apply in_or_app. left.
    apply (in_map (fun l => l ++ pad_of plot)). apply filter_In. split; [exact Hl|].
    apply forallb_forall. intros r Hr. now rewrite (Hno r Hr).
  - intros r Hr Hno. apply (Permutation_in _ (Permutation_sym Hp)).
    unfold outer_join_rows. apply in_or_app. right. apply in_or_app. right.
    apply (in_map (fun r => pad_of s ++ r)). apply filter_In. split; [exact Hr|].
    apply forallb_forall. intros l Hl. now rewrite (Hno l Hl).
Qed.

End Join.

Lemma merge_is_full_outer_join_witness :
  exists joined,
    Permutation joined (outer_join_rows 4 2 (sample_summary "+12%") sample_plot) /\
    In (ToCsv "out/GB.csv"
          (mkCsv final_columns
             (map (fun x =>
                     map (fun n =>
                            field (mkDF (summary_columns
                                         ++ ["date"; "value"; "graph_num"])
                                        joined) n x)
                         final_columns)
                  joined)))
       (log plot_knit) /\
    In ([Str "GB"; Str "York"; Str "Retail"; Num 2; Num 3; Flag false; Str "-5%"]
        ++ [NaN; NaN; NaN]) joined /\
    In ([NaN; NaN; NaN; NaN; NaN; NaN; NaN]
        ++ [Str "2020-03-27"; Num 3; Num 4]) joined.
Proof.
  destruct (merge_is_full_outer_join decimal_float unit Z
              (sample_summarise "+12%") stray_graph_process sample_read_csv
              plot_csv_process
              "GB.pdf" "GB.svg" "out" "config/dates_lookup.csv"
              (sample_summary "+12%") [] [(1%Z, tt); (4%Z, tt)] [] sample_dates []
              [mkDF ["date"; "value"; "graph_num"]
                 [[Str "2020-03-27"; Num 9; Num 1];
                  [Str "2020-03-29"; Num 12; Num 1]];
               mkDF ["date"; "value"; "graph_num"]
                 [[Str "2020-03-27"; Num 3; Num 4]]] []
              sample_plot
              (mkDF (summary_columns ++ ["date"; "value"; "graph_num"])
                 (flat_map
                    (fun k =>
                       join_group (pad_of (sample_summary "+12%")) (pad_of sample_plot)
                         (List.filter (fun l => cell_eqb (cell_at 4 l) k)
                                      (rows (sample_summary "+12%")))
                         (List.filter (fun r => cell_eqb (cell_at 2 r) k)
                                      (rows sample_plot)))
                    [Num 1; Num 2; Num 3; Num 4]))
              _
              eq_refl eq_refl eq_refl eq_refl eq_refl eq_refl eq_refl)
    as (i & j & joined & Hi & Hj & Hp & Hlog & Hl & Hr).
  injection Hi as <-. injection Hj as <-.
  exists joined. split; [exact Hp|]. split; [exact Hlog|]. split.
  - apply Hl; [right; right; left; reflexivity|].
    intros r [<-|[<-|[<-|[]]]]; reflexivity.
  - apply Hr; [right; right; left; reflexivity|].
    intros l [<-|[<-|[<-|[]]]]; reflexivity.
Defined.

Lemma bind_ext {A B} (m : M A) (k k' : A -> M B) :
  (forall a, k a = k' a) -> bind m k = bind m k'.
Proof.
  intros E. destruct m as [[a|e] l]; cbn; [|reflexivity]. now rewrite E.
Qed.

Lemma normalised_headline_is_numeric f df df1 :
  normalise_headline f df = Ok df1 ->
  Forall (fun r => numeric_or_missing (field df1 "headline" r) = true)
         (rows df1).
Proof.
  intros H. destruct (normalise_headline_rows f df df1 H) as (i & Hi & Hc & Hr & HF).
  rewrite Hr. apply List.Forall_map. revert HF. apply List.Forall_impl.
  intros r (text & c & _ & Hn & Hcell).
  unfold field. rewrite Hc, Hi, Hcell. unfold normalise_text in Hn.
  destruct (contains sentinel (remove_percent text)).
  - now injection Hn as <-.
  - destruct (f (remove_percent text)) as [[q|]|]; [| |discriminate];
      now injection Hn as <-.
Qed.

Section Pipeline.
Variable f : string -> option (option Q).
Variables Paths ChartNum : Type.
Variable summarise : string -> M DataFrame.
Variable graph_process :
  string -> option string -> bool -> M (list (ChartNum * Paths)).
Variable read_csv : string -> M DataFrame.
Variable csv_process :
  Paths -> ChartNum -> DataFrame -> string -> bool -> bool -> M DataFrame.
Variable prep_output_folder : string -> string -> option string -> M string.
Variables input_pdf input_svg output_folder dates_file : string.

(** C5, as the code has it.  Both tables are written with the headline
    column as the text extractor and the merge left it; the column is made
    numeric-or-missing afterwards, in the table [validate] works on. *)
Theorem headline_normalised_after_writing
    (s : DataFrame) (e1 : list event) (data : list (ChartNum * Paths))
    (e2 : list event) (d : DataFrame) (e3 : list event)
    (dfs : list DataFrame) (e4 : list event) (plot merged final : DataFrame) :
  summarise input_pdf = (Ok s, e1) ->
  graph_process input_svg None false = (Ok data, e2) ->
  read_csv dates_file = (Ok d, e3) ->
  mapM (fun item => csv_process (snd item) (fst item) d output_folder false true)
       data = (Ok dfs, e4) ->
  concat dfs = Ok plot ->
  merge_outer s plot "plot_num" "graph_num" = Ok merged ->
  select final_columns merged = Ok final ->
  log (knit f Paths ChartNum summarise graph_process read_csv csv_process
            input_pdf input_svg output_folder dates_file)
  = Print ("Knitting " +:+ input_pdf +:+ " and " +:+ input_svg
           +:+ " data together")
    :: e1
    ++ ToCsv (summary_path input_pdf output_folder) (mkCsv (columns s) (rows s))
    :: e2 ++ e3 ++ e4
    ++ ToCsv (final_path input_pdf output_folder)
             (mkCsv (columns final) (rows final))
    :: log (validate f final) /\
  rows final
  = map (fun x => map (fun n => field merged n x) final_columns) (rows merged) /\
  (forall df1, normalise_headline f final = Ok df1 ->
     Forall (fun r => numeric_or_missing (field df1 "headline" r) = true)
            (rows df1)).
Proof.
  intros H1 H2 H3 H4 H5 H6 H7.
  rewrite (knit_run f Paths ChartNum summarise graph_process read_csv csv_process
             input_pdf input_svg output_folder dates_file
             s e1 data e2 d e3 dfs e4 plot merged final H1 H2 H3 H4 H5 H6 H7).
  split; [reflexivity|]. split; [apply (select_rows _ _ _ H7)|].
  intros df1. apply normalised_headline_is_numeric.
Qed.

(** C6.  The final table is written with the header country, region,
    plot_name, page_num, plot_num, asterisk, date, value, headline, in that
    order, followed by its rows, each of nine cells. *)
Theorem final_table_has_the_nine_columns
    (s : DataFrame) (e1 : list event) (data : list (ChartNum * Paths))
    (e2 : list event) (d : DataFrame) (e3 : list event)
    (dfs : list DataFrame) (e4 : list event) (plot merged final : DataFrame) :
  summarise input_pdf = (Ok s, e1) ->
  graph_process input_svg None false = (Ok data, e2) ->
  read_csv dates_file = (Ok d, e3) ->
  mapM (fun item => csv_process (snd item) (fst item) d output_folder false true)
       data = (Ok dfs, e4) ->
  concat dfs = Ok plot ->
  merge_outer s plot "plot_num" "graph_num" = Ok merged ->
  select final_columns merged = Ok final ->
  In (ToCsv (final_path input_pdf output_folder)
            {| header := ["country"; "region"; "plot_name"; "page_num";
                          "plot_num"; "asterisk"; "date"; "value"; "headline"];
               records := rows final |})
     (log (knit f Paths ChartNum summarise graph_process read_csv csv_process
                input_pdf input_svg output_folder dates_file)) /\
  Forall (fun r => length r = 9%nat) (rows final) /\
  length (rows final) = length (rows merged).
Proof.
  intros H1 H2 H3 H4 H5 H6 H7.
  rewrite (knit_run f Paths ChartNum summarise graph_process read_csv csv_process
             input_pdf input_svg output_folder dates_file
             s e1 data e2 d e3 dfs e4 plot merged final H1 H2 H3 H4 H5 H6 H7).
  destruct (select_rows _ _ _ H7) as (Hc & Hr & _).
  split; [|split].
  - unfold log. cbn [snd]. right. apply in_or_app. right. right.
    apply in_or_app. right. apply in_or_app. right. apply in_or_app. right.
    left. rewrite Hc. reflexivity.
  - rewrite Hr. apply List.Forall_map. apply List.Forall_forall.
    intros r _. reflexivity.
  - rewrite Hr. apply length_map.
Qed.

(** C7, as the code has it.  An error of a load propagates and ends the
    run there: nothing after the failing load is executed and nothing is
    retried.  What was written before the failing load stays: when [knit]
    fails on the chart document or on the date lookup, the summary table is
    already on disk. *)
Theorem input_error_aborts_run :
  (forall e ev,
      summarise input_pdf = (Raise e, ev) ->
      knit f Paths ChartNum summarise graph_process read_csv csv_process
           input_pdf input_svg output_folder dates_file
      = (Raise e,
         Print ("Knitting " +:+ input_pdf +:+ " and " +:+ input_svg
                +:+ " data together") :: ev)) /\
  (forall s e1 e ev,
      summarise input_pdf = (Ok s, e1) ->
      graph_process input_svg None false = (Raise e, ev) ->
      knit f Paths ChartNum summarise graph_process read_csv csv_process
           input_pdf input_svg output_folder dates_file
      = (Raise e,
         Print ("Knitting " +:+ input_pdf +:+ " and " +:+ input_svg
                +:+ " data together")
         :: e1
         ++ ToCsv (summary_path input_pdf output_folder)
                  (mkCsv (columns s) (rows s)) :: ev)) /\
  (forall s e1 data e2 e ev,
      summarise input_pdf = (Ok s, e1) ->
      graph_process input_svg None false = (Ok data, e2) ->
      read_csv dates_file = (Raise e, ev) ->
      knit f Paths ChartNum summarise graph_process read_csv csv_process
           input_pdf input_svg output_folder dates_file
      = (Raise e,
         Print ("Knitting " +:+ input_pdf +:+ " and " +:+ input_svg
                +:+ " data together")
         :: e1
         ++ ToCsv (summary_path input_pdf output_folder)
                  (mkCsv (columns s) (rows s)) :: e2 ++ ev)) /\
  (forall input_location folder svgs plots e ev,
      read_csv dates_file = (Raise e, ev) ->
      proc Paths ChartNum graph_process read_csv csv_process prep_output_folder
           input_location output_folder folder dates_file svgs plots
      = (Raise e, ev)) /\
  (forall input_location folder svgs plots d e1 out e2 e ev,
      read_csv dates_file = (Ok d, e1) ->
      prep_output_folder input_location output_folder folder = (Ok out, e2) ->
      graph_process input_location (Some out) svgs = (Raise e, ev) ->
      proc Paths ChartNum graph_process read_csv csv_process prep_output_folder
           input_location output_folder folder dates_file svgs plots
      = (Raise e,
         e1 ++ Print ("Processing " +:+ input_location) :: e2 ++ ev)).
Proof.
  split; [|split; [|split; [|split]]].
  - intros e ev. apply knit_summarise_fails.
  - intros s e1 e ev. apply knit_graph_process_fails.
  - intros s e1 data e2 e ev. apply knit_read_csv_fails.
  - intros input_location folder svgs plots e ev. apply proc_read_csv_fails.
  - intros input_location folder svgs plots d e1 out e2 e ev.
    apply proc_graph_process_fails.
Qed.

End Pipeline.

(** C5, as the claim has it, fails on the worked report: the summary table
    is written with the headline text [+12%] in its headline column. *)
Lemma persisted_headline_is_text :
  In (ToCsv "out/GB_summary.csv"
            (mkCsv summary_columns (rows (sample_summary "+12%"))))
     (log (sample_knit "+12%" (124 # 10))) /\
  In (Str "+12%")
     (headline_cells (mkCsv summary_columns (rows (sample_summary "+12%")))) /\
  numeric_or_missing (Str "+12%") = false /\
  forallb headline_normalised (log (sample_knit "+12%" (124 # 10))) = false.
Proof.
  split; [|split; [|split]].
  - right. left. reflexivity.
  - left. reflexivity.
  - reflexivity.
  - vm_compute. reflexivity.
Qed.

Lemma headline_normalised_after_writing_witness :
  exists plot merged final,
    concat [sample_series (124 # 10) 1; sample_series (124 # 10) 2] = Ok plot /\
    merge_outer (sample_summary "+12%") plot "plot_num" "graph_num" = Ok merged /\
    select final_columns merged = Ok final /\
    log (sample_knit "+12%" (124 # 10))
    = Print "Knitting GB.pdf and GB.svg data together"
      :: ToCsv "out/GB_summary.csv"
               (mkCsv summary_columns (rows (sample_summary "+12%")))
      :: ToCsv "out/GB.csv" (mkCsv (columns final) (rows final))
      :: log (validate decimal_float final).
Proof.
  eexists _, _, _.
  split; [cbv; reflexivity|]. split; [cbv; reflexivity|].
  split; [cbv; reflexivity|].
  refine (proj1 (headline_normalised_after_writing decimal_float unit Z
            (sample_summarise "+12%") sample_graph_process sample_read_csv
            (sample_csv_process (124 # 10))
            "GB.pdf" "GB.svg" "out" "config/dates_lookup.csv"
            (sample_summary "+12%") [] [(1%Z, tt); (2%Z, tt)] [] sample_dates []
            [sample_series (124 # 10) 1; sample_series (124 # 10) 2] []
            _ _ _ eq_refl eq_refl eq_refl eq_refl _ _ _));
    cbv; reflexivity.
Defined.

Lemma final_table_has_the_nine_columns_witness :
  exists plot merged final,
    concat [sample_series (124 # 10) 1; sample_series (124 # 10) 2] = Ok plot /\
    merge_outer (sample_summary "+12%") plot "plot_num" "graph_num" = Ok merged /\
    select final_columns merged = Ok final /\
    In (ToCsv "out/GB.csv"
              {| header := ["country"; "region"; "plot_name"; "page_num";
                            "plot_num"; "asterisk"; "date"; "value"; "headline"];
                 records := rows final |})
       (log (sample_knit "+12%" (124 # 10))) /\
    length (rows final) = 7%nat.
Proof.
  eexists _, _, _.
  split; [cbv; reflexivity|]. split; [cbv; reflexivity|].
  split; [cbv; reflexivity|]. split; [|reflexivity].
  refine (proj1 (final_table_has_the_nine_columns decimal_float unit Z
            (sample_summarise "+12%") sample_graph_process sample_read_csv
            (sample_csv_process (124 # 10))
            "GB.pdf" "GB.svg" "out" "config/dates_lookup.csv"
            (sample_summary "+12%") [] [(1%Z, tt); (2%Z, tt)] [] sample_dates []
            [sample_series (124 # 10) 1; sample_series (124 # 10) 2] []
            _ _ _ eq_refl eq_refl eq_refl eq_refl _ _ _));
    cbv; reflexivity.
Defined.

(** C7, as the claim has it, fails on the worked report with an unreadable
    chart document: the run ends with the error of the load, and the
    summary table has been written. *)
Lemma failed_run_leaves_summary_table :
  outcome broken_knit = Raise (OSError "GB.svg") /\
  In (ToCsv "out/GB_summary.csv"
            (mkCsv summary_columns (rows (sample_summary "+12%"))))
     (log broken_knit) /\
  existsb is_write (log broken_knit) = true.
Proof.
  split; [reflexivity|]. split; [right; left; reflexivity|reflexivity].
Qed.

Lemma input_error_aborts_run_witness :
  broken_knit
  = (Raise (OSError "GB.svg"),
     [Print "Knitting GB.pdf and GB.svg data together";
      ToCsv "out/GB_summary.csv"
            (mkCsv summary_columns (rows (sample_summary "+12%")))]).
Proof.
  exact (proj1 (proj2
           (input_error_aborts_run decimal_float unit Z
              (sample_summarise "+12%") broken_graph_process sample_read_csv
              (sample_csv_process (124 # 10)) sample_prep
              "GB.pdf" "GB.svg" "out" "config/dates_lookup.csv"))
           (sample_summary "+12%") [] (OSError "GB.svg") [] eq_refl eq_refl).
Defined.




Section Rerun.
Variable f : string -> option (option Q).
Variables Paths ChartNum : Type.
Variable summarise_in : option file -> string -> M DataFrame.
Variable graph_process_in :
  option file -> string -> option string -> bool -> M (list (ChartNum * Paths)).
Variable read_csv_in : option file -> string -> M DataFrame.
Variable csv_process :
  Paths -> ChartNum -> DataFrame -> string -> bool -> bool -> M DataFrame.
Variables input_pdf input_svg output_folder dates_file : string.



End Rerun.


(** The condition on the inputs is needed: a run whose final table lands
    on the date lookup reads, the second time, the table it wrote the
    first time, and writes another final table. *)
Lemma rerun_after_overwritten_input_differs :
  last_write "config/dates_lookup.csv" (log (clash_knit clash_store)) <> None /\
  last_write "config/dates_lookup.csv" (log (clash_knit (clash_after clash_store)))
  <> last_write "config/dates_lookup.csv" (log (clash_knit clash_store)).
Proof.
  split; vm_compute; discriminate.
Qed.

(** * Further properties of the driver *)

(** ** Rows and groups *)

Lemma cell_at_set_at_other i j c r :
  j <> i -> cell_at j (set_at i c r) = cell_at j r.
Proof. intros H. now apply cell_at_set_at_ne. Qed.

(** X1.  The normalisation of lines 140-142 touches the headline column
    only: the column names stay, each row keeps its length and, outside
    the headline column, its cells; no row is added or removed. *)
Theorem normalisation_touches_only_headline
    (f : string -> option (option Q)) (df df1 : DataFrame) :
  normalise_headline f df = Ok df1 ->
  columns df1 = columns df /\
  exists i,
    col_index "headline" (columns df) = Some i /\
    Forall2 (fun r r1 =>
               length r1 = length r /\
               forall j, j <> i -> cell_at j r1 = cell_at j r)
            (rows df) (rows df1).
Proof.
  intros H.
  destruct (normalise_headline_rows f df df1 H) as (i & Hi & Hc & Hr & _).
  split; [exact Hc|]. exists i. split; [exact Hi|]. rewrite Hr.
  clear. induction (rows df) as [|r rs IH]; cbn [map]; constructor; [|exact IH].
  unfold normalise_row. split; [apply length_set_at|].
  intros j Hj. now apply cell_at_set_at_other.
Qed.

Lemma normalisation_touches_only_headline_witness :
  normalise_headline decimal_float sample_gaps
  = Ok (mkDF final_columns (map (normalise_row decimal_float 8) (rows sample_gaps))) /\
  exists i,
    col_index "headline" (columns sample_gaps) = Some i /\
    Forall2 (fun r r1 =>
               length r1 = length r /\
               forall j, j <> i -> cell_at j r1 = cell_at j r)
            (rows sample_gaps)
            (map (normalise_row decimal_float 8) (rows sample_gaps)).
Proof.
  assert (H : normalise_headline decimal_float sample_gaps
              = Ok (mkDF final_columns
                      (map (normalise_row decimal_float 8) (rows sample_gaps))))
    by (vm_compute; reflexivity).
  split; [exact H|].
  exact (proj2 (normalisation_touches_only_headline decimal_float _ _ H)).
Defined.



(** ** Headline texts that are neither sentinel nor number *)

Lemma rmap_raises {A B} (g : A -> result B) (e0 : exn) l :
  (forall a e, g a = Raise e -> e = e0) ->
  Exists (fun a => g a = Raise e0) l ->
  rmap g l = Raise e0.
Proof.
  intros Hu. induction 1 as [a l Ha|a l _ IH]; cbn [rmap].
  - now rewrite Ha.
  - destruct (g a) as [b|e] eqn:E; cbn [rbind].
    + now rewrite IH.
    + now rewrite (Hu a e E).
Qed.

Lemma astype_float_error f c e :
  astype_float f c = Raise e ->
  e = ValueError "could not convert string to float".
Proof.
  destruct c as [|q|s|b]; cbn; try discriminate.
  destruct (f s); [discriminate|]. now intros [= <-].
Qed.

(** X3.  A headline text that does not carry the sentinel and that
    [float] rejects makes [validate] raise [ValueError], before anything
    is printed. *)
Theorem validate_rejects_unreadable_headline
    (f : string -> option (option Q)) (df : DataFrame) (i : nat) :
  col_index "headline" (columns df) = Some i ->
  Forall (fun r => exists text, cell_at i r = Str text) (rows df) ->
  Exists (fun r => exists text,
            cell_at i r = Str text /\
            contains sentinel (remove_percent text) = false /\
            f (remove_percent text) = None) (rows df) ->
  validate f df
  = (Raise (ValueError "could not convert string to float"), []).
Proof.
  destruct df as [cols rs]. cbn [columns rows]. intros Hi Hall Hbad.
  assert (H : normalise_headline f (mkDF cols rs)
              = Raise (ValueError "could not convert string to float")).
  { rewrite (normalise_headline_texts f cols rs i Hi Hall).
    rewrite (rmap_raises (astype_float f)
               (ValueError "could not convert string to float")).
    - reflexivity.
    - intros a e. apply astype_float_error.
    - rewrite List.Exists_map. revert Hbad.
      apply List.Exists_impl. intros r (text & Hc & Hs & Hf).
      rewrite Hc. cbn. rewrite Hs. cbn. now rewrite Hf. }
  unfold validate. rewrite H. reflexivity.
Qed.

Lemma validate_rejects_unreadable_headline_witness :
  validate decimal_float (sample_table "twelve" (124 # 10))
  = (Raise (ValueError "could not convert string to float"), []).
Proof.
  apply (validate_rejects_unreadable_headline decimal_float
           (sample_table "twelve" (124 # 10)) 8 eq_refl).
  - repeat constructor; eexists; reflexivity.
  - constructor. exists "twelve". repeat split; reflexivity.
Defined.

(** ** The order of the merged rows *)

(** X4.  The merge keeps the series rows of a chart together and in the
    order of the series table: when the key columns can be joined, for a
    summary row that is the only one of its chart number, the merged table
    holds its pairings with the series rows of that number as one run, in
    the order the tabulator gave them. *)
Theorem merge_keeps_series_order
    (summary_df plot_df : DataFrame) (i j : nat) (l : row) :
  col_index "plot_num" (columns summary_df) = Some i ->
  col_index "graph_num" (columns plot_df) = Some j ->
  keys_joinable summary_df plot_df = true ->
  List.filter (fun l' => cell_eqb (cell_at i l') (cell_at i l)) (rows summary_df)
  = [l] ->
  List.filter (matches i j l) (rows plot_df) <> [] ->
  exists result_df pre post,
    merge_outer summary_df plot_df "plot_num" "graph_num" = Ok result_df /\
    rows result_df
    = pre ++ map (fun r => l ++ r) (List.filter (matches i j l) (rows plot_df))
          ++ post.
Proof.
  intros Hi Hj Hk Hl Hr. unfold merge_outer.
  unfold keys_joinable in Hk. rewrite Hi, Hj in *. cbv zeta.
  destruct (check_keys _ _) as [[]|]; [|discriminate]. cbn [rbind].
  set (keys := join_keys _ _).
  assert (Hin : In l (rows summary_df)).
  { assert (H : In l [l]) by now left. rewrite <- Hl in H.
    now apply filter_In in H. }
  destruct (join_keys_covers (map (cell_at i) (rows summary_df))
              (map (cell_at j) (rows plot_df)) (cell_at i l))
    as (k & Hkin & Ek).
  { apply in_or_app. left. now apply in_map. }
  fold keys in Hkin. clearbody keys.
  apply in_split in Hkin as (ks1 & ks2 & ->).
  eexists _, _, _. split; [reflexivity|]. cbn [rows].
  rewrite flat_map_app. cbn [flat_map]. f_equal. f_equal.
  rewrite (filter_pointwise (fun l' => cell_eqb (cell_at i l') k)
             (fun l' => cell_eqb (cell_at i l') (cell_at i l)))
    by (intros l'; now apply cell_eqb_right).
  rewrite (filter_pointwise (fun r => cell_eqb (cell_at j r) k) (matches i j l)).
  2:{ intros r. unfold matches. rewrite (cell_eqb_right _ _ _ Ek).
      apply cell_eqb_sym. }
  rewrite Hl. unfold join_group.
  destruct (List.filter (matches i j l) (rows plot_df)) as [|r0 rs0];
    [contradiction|].
  cbn [flat_map]. now rewrite app_nil_r.
Qed.

Lemma merge_keeps_series_order_witness :
  exists result_df pre post,
    merge_outer (sample_summary "+12%") sample_plot "plot_num" "graph_num"
    = Ok result_df /\
    rows result_df
    = pre ++ map (fun r => [Str "GB"; Str "Leeds"; Str "Retail"; Num 1; Num 1;
                            Flag false; Str "+12%"] ++ r)
                 [[Str "2020-03-27"; Num 9; Num 1];
                  [Str "2020-03-29"; Num 12; Num 1]]
          ++ post.
Proof.
  exact (merge_keeps_series_order (sample_summary "+12%") sample_plot 4 2
           [Str "GB"; Str "Leeds"; Str "Retail"; Num 1; Num 1; Flag false;
            Str "+12%"]
           eq_refl eq_refl eq_refl eq_refl
           (fun H => eq_ind (A:=list row)
                       [[Str "2020-03-27"; Num 9; Num 1];
                        [Str "2020-03-29"; Num 12; Num 1]]
                       (fun x => match x with [] => False | _ => True end)
                       I [] H)).
Defined.

(** ** Column names after the merge *)

Lemma col_index_none n l : has_name n l = false -> col_index n l = None.
Proof.
  unfold has_name. induction l as [|c l IH]; cbn; [reflexivity|].
  intros H. apply orb_false_iff in H as [H1 H2]. rewrite H1, (IH H2). reflexivity.
Qed.

Lemma has_name_app n l1 l2 :
  has_name n (l1 ++ l2) = has_name n l1 || has_name n l2.
Proof. unfold has_name. apply existsb_app. Qed.

Lemma ends_with_append c sfx : ends_with sfx (c +:+ sfx) = true.
Proof.
  induction c as [|a c IH].
  - change (EmptyString +:+ sfx) with sfx.
    destruct sfx; cbn [ends_with]; now rewrite String.eqb_refl.
  - change (String a c +:+ sfx) with (String a (c +:+ sfx)).
    cbn [ends_with]. rewrite IH. apply orb_true_r.
Qed.

Lemma has_name_add_suffix n sfx other cols :
  has_name n other = true ->
  ends_with sfx n = false ->
  has_name n (add_suffix sfx other cols) = false.
Proof.
  intros Ho He. unfold has_name, add_suffix.
  induction cols as [|c cols IH]; cbn; [reflexivity|].
  rewrite IH, orb_false_r.
  destruct (String.eqb_spec n (if has_name c other then c +:+ sfx else c))
    as [E|]; [|reflexivity].
  destruct (has_name c other) eqn:Hc.
  - rewrite E, ends_with_append in He. discriminate.
  - rewrite E, Hc in Ho. discriminate.
Qed.

Lemma select_missing_column names df n :
  In n names -> col_index n (columns df) = None ->
  exists m, select names df = Raise (KeyError m).
Proof.
  intros Hin Hn. unfold select.
  assert (H : exists m, rmap (fun n => match col_index n (columns df) with
                                       | Some i => Ok i
                                       | None => Raise (KeyError n)
                                       end) names = Raise (KeyError m)).
  { induction names as [|a names IH]; [destruct Hin|]. cbn [rmap].
    destruct (col_index a (columns df)) as [k|] eqn:E; cbn [rbind]; [|eauto].
    destruct Hin as [->|Hin]; [congruence|].
    destruct (IH Hin) as [m ->]. eauto. }
  destruct H as [m ->]. eauto.
Qed.

(** ** Runs of [knit] that end before the final table *)

Section KnitEdges.
Variable f : string -> option (option Q).
Variables Paths ChartNum : Type.
Variable summarise : string -> M DataFrame.
Variable graph_process :
  string -> option string -> bool -> M (list (ChartNum * Paths)).
Variable read_csv : string -> M DataFrame.
Variable csv_process :
  Paths -> ChartNum -> DataFrame -> string -> bool -> bool -> M DataFrame.
Variable prep_output_folder : string -> string -> option string -> M string.
Variables input_pdf input_svg output_folder dates_file : string.

(** X5.  When the chart document yields no chart, [knit] raises the
    [ValueError] of [pd.concat] on an empty list: the summary table is
    written, the final table is not, and [validate] does not run. *)
Theorem knit_without_charts_raises
    (s : DataFrame) (e1 e2 : list event) (d : DataFrame) (e3 : list event) :
  summarise input_pdf = (Ok s, e1) ->
  graph_process input_svg None false = (Ok [], e2) ->
  read_csv dates_file = (Ok d, e3) ->
  knit f Paths ChartNum summarise graph_process read_csv csv_process
       input_pdf input_svg output_folder dates_file
  = (Raise (ValueError "No objects to concatenate"),
     Print ("Knitting " +:+ input_pdf +:+ " and " +:+ input_svg
            +:+ " data together")
     :: e1
     ++ ToCsv (summary_path input_pdf output_folder)
              (mkCsv (columns s) (rows s)) :: e2 ++ e3).
Proof.
  intros H1 H2 H3. unfold knit, print, to_csv.
  rewrite bind_emit, H1, bind_Ok, bind_emit, H2, bind_Ok, H3, bind_Ok.
  cbn. now rewrite !app_nil_r.
Qed.

(** X6.  When the series frames carry a column under a name of the final
    table that the summary has too, and the chart numbers can be joined,
    the merge renames both columns and the selection of the final columns
    raises [KeyError]: the summary table is written, the final table is
    not. *)
Theorem knit_shared_column_raises
    (s : DataFrame) (e1 : list event) (data : list (ChartNum * Paths))
    (e2 : list event) (d : DataFrame) (e3 : list event)
    (dfs : list DataFrame) (e4 : list event) (plot : DataFrame) (n : string) :
  summarise input_pdf = (Ok s, e1) ->
  graph_process input_svg None false = (Ok data, e2) ->
  read_csv dates_file = (Ok d, e3) ->
  mapM (fun item => csv_process (snd item) (fst item) d output_folder false true)
       data = (Ok dfs, e4) ->
  concat dfs = Ok plot ->
  keys_joinable s plot = true ->
  In n final_columns ->
  has_name n (columns s) = true ->
  has_name n (columns plot) = true ->
  exists m,
    knit f Paths ChartNum summarise graph_process read_csv csv_process
         input_pdf input_svg output_folder dates_file
    = (Raise (KeyError m),
       Print ("Knitting " +:+ input_pdf +:+ " and " +:+ input_svg
              +:+ " data together")
       :: e1
       ++ ToCsv (summary_path input_pdf output_folder)
                (mkCsv (columns s) (rows s)) :: e2 ++ e3 ++ e4).
Proof.
  intros H1 H2 H3 H4 H5 Hk Hn Hs Hp.
  assert (Hx : ends_with "_x" n = false /\ ends_with "_y" n = false).
  { cbn in Hn. repeat (destruct Hn as [<-|Hn]; [split; reflexivity|]).
    destruct Hn. }
  destruct Hx as [Hx Hy].
  assert (Hm : exists m,
             rbind (merge_outer s plot "plot_num" "graph_num")
                   (select final_columns) = Raise (KeyError m)).
  { unfold merge_outer. unfold keys_joinable in Hk.
    destruct (col_index "plot_num" (columns s)); [|cbn; eauto].
    destruct (col_index "graph_num" (columns plot)); [|cbn; eauto].
    cbv zeta. destruct (check_keys _ _) as [[]|]; [|discriminate].
    cbn [rbind]. apply (select_missing_column _ _ n Hn). cbn [columns].
    apply col_index_none. rewrite has_name_app.
    rewrite (has_name_add_suffix n "_x" _ _ Hp Hx).
    now rewrite (has_name_add_suffix n "_y" _ _ Hs Hy). }
  destruct Hm as [m Hm]. exists m.
  unfold knit, print, to_csv.
  rewrite bind_emit, H1, bind_Ok, bind_emit, H2, bind_Ok, H3, bind_Ok.
  rewrite H4, bind_Ok, H5, bind_lift.
  destruct (merge_outer s plot "plot_num" "graph_num") as [merged|e] eqn:E;
    cbn [rbind] in Hm.
  - rewrite bind_lift, Hm. cbn. now rewrite !app_nil_r.
  - injection Hm as ->. cbn. now rewrite !app_nil_r.
Qed.

(** ** The charts of [proc] *)

Lemma mapM_all {A B} (g : A -> M B) (val : A -> B) (evs : A -> list event) l :
  (forall a, In a l -> g a = (Ok (val a), evs a)) ->
  mapM g l = (Ok (map val l), flat_map evs l).
Proof.
  induction l as [|a l IH]; intros H; [reflexivity|]. cbn [mapM map flat_map].
  rewrite (H a (or_introl eq_refl)), bind_Ok, IH, bind_Ok
    by (intros x Hx; apply H; now right).
  cbn. now rewrite app_nil_r.
Qed.

Lemma mapM_stops {A B} (g : A -> M B) (val : A -> B) (evs : A -> list event)
    before a after e ev :
  (forall x, In x before -> g x = (Ok (val x), evs x)) ->
  g a = (Raise e, ev) ->
  mapM g (before ++ a :: after) = (Raise e, flat_map evs before ++ ev).
Proof.
  intros H Ha. induction before as [|x before IH]; cbn [app mapM flat_map].
  - now rewrite Ha.
  - rewrite (H x (or_introl eq_refl)), bind_Ok, IH
      by (intros y Hy; apply H; now right).
    cbn. now rewrite app_assoc.
Qed.

(** X9.  [proc] tabulates the charts in the order of the chart document:
    when every chart goes through, it returns one frame per chart in that
    order; when a chart fails, the error ends the run there, what the
    charts before it left stays and the charts after it are not touched. *)
Theorem proc_tabulates_charts_in_order
    (input_location : string) (folder : option string) (svgs plots : bool)
    (d : DataFrame) (e1 : list event) (out : string) (e2 : list event)
    (data : list (ChartNum * Paths)) (e3 : list event)
    (frame : ChartNum * Paths -> DataFrame)
    (left_by : ChartNum * Paths -> list event) :
  read_csv dates_file = (Ok d, e1) ->
  prep_output_folder input_location output_folder folder = (Ok out, e2) ->
  graph_process input_location (Some out) svgs = (Ok data, e3) ->
  ((forall item, In item data ->
      csv_process (snd item) (fst item) d out plots true
      = (Ok (frame item), left_by item)) ->
   proc Paths ChartNum graph_process read_csv csv_process prep_output_folder
        input_location output_folder folder dates_file svgs plots
   = (Ok (map frame data),
      e1 ++ Print ("Processing " +:+ input_location) :: e2 ++ e3
      ++ flat_map left_by data)) /\
  (forall before item after e ev,
      data = before ++ item :: after ->
      (forall x, In x before ->
         csv_process (snd x) (fst x) d out plots true
         = (Ok (frame x), left_by x)) ->
      csv_process (snd item) (fst item) d out plots true = (Raise e, ev) ->
      proc Paths ChartNum graph_process read_csv csv_process prep_output_folder
           input_location output_folder folder dates_file svgs plots
      = (Raise e,
         e1 ++ Print ("Processing " +:+ input_location) :: e2 ++ e3
         ++ flat_map left_by before ++ ev)).
Proof.
  intros H1 H2 H3. split.
  - intros Hall. unfold proc, print.
    rewrite H1, bind_Ok, bind_emit, H2, bind_Ok, H3, bind_Ok.
    now rewrite (mapM_all _ frame left_by data Hall).
  - intros before item after e ev -> Hbefore Hitem. unfold proc, print.
    rewrite H1, bind_Ok, bind_emit, H2, bind_Ok, H3, bind_Ok.
    now rewrite (mapM_stops _ frame left_by before item after e ev Hbefore Hitem).
Qed.

End KnitEdges.

Lemma knit_without_charts_raises_witness :
  knit decimal_float unit Z (sample_summarise "+12%") empty_graph_process
       sample_read_csv (sample_csv_process (124 # 10))
       "GB.pdf" "GB.svg" "out" "config/dates_lookup.csv"
  = (Raise (ValueError "No objects to concatenate"),
     [Print "Knitting GB.pdf and GB.svg data together";
      ToCsv "out/GB_summary.csv"
            (mkCsv summary_columns (rows (sample_summary "+12%")))]).
Proof.
  exact (knit_without_charts_raises decimal_float unit Z
           (sample_summarise "+12%") empty_graph_process sample_read_csv
           (sample_csv_process (124 # 10))
           "GB.pdf" "GB.svg" "out" "config/dates_lookup.csv"
           (sample_summary "+12%") [] [] sample_dates []
           eq_refl eq_refl eq_refl).
Defined.

Lemma knit_shared_column_raises_witness :
  exists m,
    knit decimal_float unit Z (sample_summarise "+12%") sample_graph_process
         sample_read_csv country_csv_process
         "GB.pdf" "GB.svg" "out" "config/dates_lookup.csv"
    = (Raise (KeyError m),
       [Print "Knitting GB.pdf and GB.svg data together";
        ToCsv "out/GB_summary.csv"
              (mkCsv summary_columns (rows (sample_summary "+12%")))]).
Proof.
  refine (knit_shared_column_raises decimal_float unit Z
            (sample_summarise "+12%") sample_graph_process sample_read_csv
            country_csv_process
            "GB.pdf" "GB.svg" "out" "config/dates_lookup.csv"
            (sample_summary "+12%") [] [(1%Z, tt); (2%Z, tt)] [] sample_dates []
            _ [] _ "country"
            eq_refl eq_refl eq_refl eq_refl _ _ _ _ _).
  - cbv. reflexivity.
  - reflexivity.
  - left. reflexivity.
  - reflexivity.
  - reflexivity.
Defined.

Lemma proc_tabulates_charts_in_order_witness :
  proc unit Z sample_graph_process sample_read_csv
       (sample_csv_process (124 # 10)) sample_prep
       "GB.svg" "out" None "config/dates_lookup.csv" false false
  = (Ok [sample_series (124 # 10) 1; sample_series (124 # 10) 2],
     [Print "Processing GB.svg"]).
Proof.
  exact (proj1
           (proc_tabulates_charts_in_order unit Z sample_graph_process
              sample_read_csv (sample_csv_process (124 # 10)) sample_prep
              "out" "config/dates_lookup.csv"
              "GB.svg" None false false
              sample_dates [] "out" [] [(1%Z, tt); (2%Z, tt)] []
              (fun item => sample_series (124 # 10) (fst item))
              (fun _ => [])
              eq_refl eq_refl eq_refl)
           (fun item _ => eq_refl)).
Defined.

(** ** The paths of the two tables *)

Lemma basename_no_slash p : has_char slash (basename p) = false.
Proof.
  induction p as [|a p IH]; [reflexivity|]. cbn [basename].
  destruct (has_char slash (String a p)) eqn:E; [exact IH|exact E].
Qed.

Lemma basename_plain p : has_char slash p = false -> basename p = p.
Proof. destruct p as [|a p]; [reflexivity|]. cbn [basename]. now intros ->. Qed.

Lemma has_char_append c s t :
  has_char c (s +:+ t) = has_char c s || has_char c t.
Proof.
  induction s as [|a s IH]; [reflexivity|].
  change (String a s +:+ t) with (String a (s +:+ t)). cbn [has_char].
  now rewrite IH, orb_assoc.
Qed.

Lemma has_char_substring c n m s :
  has_char c s = false -> has_char c (String.substring n m s) = false.
Proof.
  revert n m. induction s as [|a s IH]; intros n m H.
  - now destruct n, m.
  - cbn [has_char] in H. apply orb_false_iff in H as [Ha Hs].
    destruct n as [|n]; [destruct m as [|m]|]; cbn [String.substring has_char];
      [reflexivity| |now apply IH].
    rewrite Ha. now apply IH.
Qed.

Lemma splitext_root_no_slash p :
  has_char slash p = false -> has_char slash (splitext_root p) = false.
Proof.
  intros H. unfold splitext_root. destruct (rfind dot p); [|exact H].
  destruct (_ && _); [|exact H]. now apply has_char_substring.
Qed.

Lemma append_empty_r s : s +:+ "" = s.
Proof.
  induction s as [|a s IH]; [reflexivity|].
  change (String a s +:+ "") with (String a (s +:+ "")). now rewrite IH.
Qed.

Lemma append_assoc_string s t u : (s +:+ t) +:+ u = s +:+ t +:+ u.
Proof.
  induction s as [|a s IH]; [reflexivity|].
  change ((String a s +:+ t) +:+ u) with (String a ((s +:+ t) +:+ u)).
  now rewrite IH.
Qed.

Lemma path_join_relative a b :
  has_char slash b = false -> path_join a b = folder_prefix a +:+ b.
Proof.
  intros H. unfold path_join, folder_prefix. destruct b as [|c b].
  - destruct a as [|x a]; [reflexivity|].
    destruct (String.eqb _ "/"); symmetry; apply append_empty_r.
  - cbn [has_char] in H. apply orb_false_iff in H as [Hc _]. rewrite Hc.
    destruct a as [|x a]; [reflexivity|].
    destruct (String.eqb _ "/"); [reflexivity|].
    now rewrite append_assoc_string.
Qed.

Lemma append_cancel_l a b c : a +:+ b = a +:+ c -> b = c.
Proof.
  induction a as [|x a IH]; [auto|]. intros [= H]. auto.
Qed.

(** X7.  Both tables of [knit] are written into the output folder, under
    file names made of the stem of the PDF's name, which holds no slash;
    the two paths differ, so neither table overwrites the other. *)
Theorem tables_lie_in_the_output_folder (input_pdf output_folder : string) :
  has_char slash (splitext_root (basename input_pdf)) = false /\
  summary_path input_pdf output_folder
  = folder_prefix output_folder
    +:+ splitext_root (basename input_pdf) +:+ "_summary.csv" /\
  final_path input_pdf output_folder
  = folder_prefix output_folder
    +:+ splitext_root (basename input_pdf) +:+ ".csv" /\
  summary_path input_pdf output_folder <> final_path input_pdf output_folder.
Proof.
  assert (Hs : has_char slash (splitext_root (basename input_pdf)) = false)
    by apply splitext_root_no_slash, basename_no_slash.
  assert (H1 : summary_path input_pdf output_folder
               = folder_prefix output_folder
                 +:+ splitext_root (basename input_pdf) +:+ "_summary.csv").
  { unfold summary_path. apply path_join_relative.
    now rewrite has_char_append, Hs. }
  assert (H2 : final_path input_pdf output_folder
               = folder_prefix output_folder
                 +:+ splitext_root (basename input_pdf) +:+ ".csv").
  { unfold final_path. apply path_join_relative.
    now rewrite has_char_append, Hs. }
  split; [exact Hs|]. split; [exact H1|]. split; [exact H2|].
  rewrite H1, H2. intros E. apply append_cancel_l, append_cancel_l in E.
  discriminate.
Qed.

Lemma basename_after_slash d rest :
  has_char slash rest = false -> basename (d +:+ "/" +:+ rest) = rest.
Proof.
  intros H. induction d as [|a d IH].
  - change ("" +:+ "/" +:+ rest) with (String slash rest).
    cbn [basename has_char]. rewrite Ascii.eqb_refl. cbn [orb].
    now apply basename_plain.
  - change (String a d +:+ "/" +:+ rest) with (String a (d +:+ "/" +:+ rest)).
    cbn [basename has_char]. rewrite has_char_append.
    change (has_char slash ("/" +:+ rest)) with (has_char slash (String slash rest)).
    cbn [has_char]. rewrite Ascii.eqb_refl, !orb_true_r. exact IH.
Qed.

Lemma rfind_none c s : has_char c s = false -> rfind c s = None.
Proof.
  induction s as [|a s IH]; [reflexivity|]. cbn [has_char rfind].
  intros H. apply orb_false_iff in H as [Ha Hs]. now rewrite (IH Hs), Ha.
Qed.

Lemma rfind_last c s t :
  has_char c t = false -> rfind c (s +:+ String c t) = Some (String.length s).
Proof.
  intros H. induction s as [|a s IH].
  - change ("" +:+ String c t) with (String c t). cbn [rfind].
    now rewrite (rfind_none c t H), Ascii.eqb_refl.
  - change (String a s +:+ String c t) with (String a (s +:+ String c t)).
    cbn [rfind]. now rewrite IH.
Qed.

Lemma substring_prefix s t : String.substring 0 (String.length s) (s +:+ t) = s.
Proof.
  induction s as [|a s IH].
  - now destruct t.
  - change (String a s +:+ t) with (String a (s +:+ t)).
    cbn [String.length String.substring]. now rewrite IH.
Qed.

Lemma splitext_root_of_name name ext :
  has_char slash name = false ->
  forallb (fun a => Ascii.eqb a dot) (list_ascii_of_string name) = false ->
  has_char slash ext = false ->
  has_char dot ext = false ->
  splitext_root (name +:+ "." +:+ ext) = name.
Proof.
  intros Hsn Hdn Hse Hde. unfold splitext_root.
  change (name +:+ "." +:+ ext) with (name +:+ String dot ext).
  rewrite (rfind_last dot name ext Hde).
  rewrite rfind_none.
  2:{ rewrite has_char_append, Hsn. cbn [has_char]. now rewrite Hse. }
  rewrite Nat.sub_0_r, substring_prefix, Hdn. reflexivity.
Qed.

(** X8.  The tables are named after the PDF: for a PDF [dir/name.ext],
    where [name] is not made of dots only and [ext] holds no dot, [knit]
    writes [name_summary.csv] and [name.csv] into the output folder. *)
Theorem tables_are_named_after_the_pdf (dir name ext output_folder : string) :
  dir = "" \/ (exists d, dir = d +:+ "/") ->
  has_char slash name = false ->
  forallb (fun a => Ascii.eqb a dot) (list_ascii_of_string name) = false ->
  has_char slash ext = false ->
  has_char dot ext = false ->
  summary_path (dir +:+ name +:+ "." +:+ ext) output_folder
  = folder_prefix output_folder +:+ name +:+ "_summary.csv" /\
  final_path (dir +:+ name +:+ "." +:+ ext) output_folder
  = folder_prefix output_folder +:+ name +:+ ".csv".
Proof.
  intros Hdir Hsn Hdn Hse Hde.
  assert (Hplain : has_char slash (name +:+ "." +:+ ext) = false).
  { rewrite has_char_append, Hsn. cbn [orb].
    change ("." +:+ ext) with (String dot ext). cbn [has_char]. now rewrite Hse. }
  assert (Hstem : splitext_root (basename (dir +:+ name +:+ "." +:+ ext)) = name).
  { assert (Hb : basename (dir +:+ name +:+ "." +:+ ext) = name +:+ "." +:+ ext).
    { destruct Hdir as [->|[d ->]].
      - now apply basename_plain.
      - rewrite append_assoc_string. now apply basename_after_slash. }
    rewrite Hb. now apply splitext_root_of_name. }
  destruct (tables_lie_in_the_output_folder
              (dir +:+ name +:+ "." +:+ ext) output_folder)
    as (_ & H1 & H2 & _).
  rewrite Hstem in H1, H2. auto.
Qed.

Lemma tables_are_named_after_the_pdf_witness :
  summary_path ("reports/" +:+ "2020-03-29_GB_Mobility_Report_en" +:+ "." +:+ "pdf")
               "out"
  = "out/2020-03-29_GB_Mobility_Report_en_summary.csv" /\
  final_path ("reports/" +:+ "2020-03-29_GB_Mobility_Report_en" +:+ "." +:+ "pdf")
             "out"
  = "out/2020-03-29_GB_Mobility_Report_en.csv".
Proof.
  exact (tables_are_named_after_the_pdf "reports/"
           "2020-03-29_GB_Mobility_Report_en" "pdf" "out"
           (or_intror (ex_intro _ "reports" eq_refl))
           eq_refl eq_refl eq_refl eq_refl).
Defined.

(** * Properties of the bucket commands *)

Module BucketFacts.
Import Bucket.

(** ** Splitting names *)

Lemma split_on_plain sep s : has_char sep s = false -> split_on sep s = [s].
Proof.
  induction s as [|a s IH]; [reflexivity|]. cbn [has_char split_on].
  intros H. apply orb_false_iff in H as [Ha Hs]. now rewrite Ha, (IH Hs).
Qed.

Lemma split_on_two sep s :
  has_char sep s = true -> exists h x t, split_on sep s = h :: x :: t.
Proof.
  induction s as [|a s IH]; [discriminate|]. cbn [has_char split_on].
  destruct (Ascii.eqb a sep) eqn:Ea; cbn [orb].
  - intros _. destruct s as [|b s]; [cbn; eauto|].
    destruct (split_on sep (String b s)) as [|x t] eqn:E; [|eauto].
    cbn [split_on] in E. destruct (Ascii.eqb b sep); [discriminate|].
    destruct (split_on sep s); discriminate.
  - intros H. destruct (IH H) as (h & x & t & ->). eauto.
Qed.

Lemma split_on_append sep a b :
  has_char sep a = false ->
  split_on sep (a +:+ String sep b) = a :: split_on sep b.
Proof.
  intros H. induction a as [|x a IH].
  - change ("" +:+ String sep b) with (String sep b). cbn [split_on].
    now rewrite Ascii.eqb_refl.
  - cbn [has_char] in H. apply orb_false_iff in H as [Hx Ha].
    change (String x a +:+ String sep b) with (String x (a +:+ String sep b)).
    cbn [split_on]. now rewrite Hx, (IH Ha).
Qed.

(** [name.split("/")[-1]] is the base name of [os.path]. *)
Lemma last_split_is_basename p :
  List.last (split_on slash p) EmptyString = basename p.
Proof.
  induction p as [|a p IH]; [reflexivity|]. cbn [split_on basename has_char].
  destruct (Ascii.eqb a slash) eqn:Ea; cbn [orb].
  - rewrite <- IH. destruct (split_on slash p) eqn:E; [|reflexivity].
    destruct p; cbn in E; [discriminate|].
    destruct (Ascii.eqb _ slash); [discriminate|].
    destruct (split_on slash p); discriminate.
  - destruct (has_char slash p) eqn:Hp.
    + destruct (split_on_two slash p Hp) as (h & x & t & E).
      rewrite E in *. exact IH.
    + now rewrite (split_on_plain slash p Hp).
Qed.

Lemma basename_in_folder dir base :
  dir = "" \/ (exists d, dir = d +:+ "/") ->
  has_char slash base = false ->
  basename (dir +:+ base) = base.
Proof.
  intros [->|[d ->]] H.
  - now apply basename_plain.
  - rewrite append_assoc_string. now apply basename_after_slash.
Qed.

(** X10.  For an SVG blob [get_country] gives the second of the fields of
    the base name that underscores separate: the country code that follows
    the date. *)
Theorem get_country_reads_second_field
    (dir date code rest content : string) :
  dir = "" \/ (exists d, dir = d +:+ "/") ->
  has_char slash (date +:+ "_" +:+ code +:+ rest) = false ->
  has_char "_"%char date = false ->
  has_char "_"%char code = false ->
  rest = "" \/ (exists t, rest = String "_"%char t) ->
  get_country (mkBlob (dir +:+ date +:+ "_" +:+ code +:+ rest) content) true
  = Val code.
Proof.
  intros Hdir Hs Hd Hc Hrest. unfold get_country. cbn [name].
  rewrite last_split_is_basename, (basename_in_folder dir _ Hdir Hs).
  change (date +:+ "_" +:+ code +:+ rest)
    with (date +:+ String "_"%char (code +:+ rest)).
  rewrite (split_on_append _ _ _ Hd).
  destruct Hrest as [->|[t ->]].
  - now rewrite append_empty_r, (split_on_plain _ _ Hc).
  - now rewrite (split_on_append _ _ _ Hc).
Qed.

Lemma get_country_reads_second_field_witness :
  get_country (mkBlob ("SVG/" +:+ "2020-03-29" +:+ "_" +:+ "GB"
                       +:+ "_Mobility_Report_en.svg") "") true
  = Val "GB".
Proof.
  exact (get_country_reads_second_field "SVG/" "2020-03-29" "GB"
           "_Mobility_Report_en.svg" ""
           (or_intror (ex_intro _ "SVG" eq_refl)) eq_refl eq_refl eq_refl
           (or_intror (ex_intro _ "Mobility_Report_en.svg" eq_refl))).
Defined.

(** X11.  For an SVG blob [get_country] raises [IndexError] exactly when
    the base name of the blob holds no underscore; a PDF blob never makes
    it raise. *)
Theorem get_country_needs_an_underscore (b : blob) :
  (get_country b true = Err (IndexError "list index out of range") <->
   has_char "_"%char (basename (name b)) = false) /\
  (has_char "_"%char (basename (name b)) = true ->
   exists country, get_country b true = Val country) /\
  (exists country, get_country b false = Val country).
Proof.
  unfold get_country. rewrite last_split_is_basename.
  split; [|split].
  - destruct (has_char "_"%char (basename (name b))) eqn:H.
    + destruct (split_on_two _ _ H) as (h & x & t & ->). split; discriminate.
    + rewrite (split_on_plain _ _ H). split; reflexivity.
  - intros H. destruct (split_on_two _ _ H) as (h & x & t & ->). eauto.
  - eauto.
Qed.

(** ** The country of a PDF *)

Lemma length_append_string s t :
  String.length (s +:+ t) = (String.length s + String.length t)%nat.
Proof.
  induction s as [|a s IH]; [reflexivity|].
  change (String a s +:+ t) with (String a (s +:+ t)). cbn [String.length].
  now rewrite IH.
Qed.




Lemma substring_skip a b :
  String.substring (String.length a) (String.length b) (a +:+ b) = b.
Proof.
  induction a as [|x a IH].
  - change ("" +:+ b) with b. rewrite <- (append_empty_r b) at 2.
    apply substring_prefix.
  - change (String x a +:+ b) with (String x (a +:+ b)).
    cbn [String.length String.substring]. exact IH.
Qed.




(** ** The columns of [show] *)

Lemma length_spaces n : String.length (spaces n) = n.
Proof. induction n as [|n IH]; cbn; auto. Qed.

Lemma length_substring_0 n s :
  (n <= String.length s)%nat -> String.length (String.substring 0 n s) = n.
Proof.
  revert n. induction s as [|a s IH]; intros [|n] H; cbn in *; try lia; auto.
  rewrite IH; lia.
Qed.

Lemma prefix_append s t : String.prefix s (s +:+ t) = true.
Proof.
  induction s as [|a s IH]; [now destruct t|].
  change (String a s +:+ t) with (String a (s +:+ t)). cbn [String.prefix].
  destruct (ascii_dec a a); [exact IH|contradiction].
Qed.

Lemma prefix_substring_0 n s : String.prefix (String.substring 0 n s) s = true.
Proof.
  revert n. induction s as [|a s IH]; intros [|n]; cbn; auto.
  destruct (ascii_dec a a); [apply IH|contradiction].
Qed.

Lemma char_length_append s t :
  char_length (s +:+ t) = (char_length s + char_length t)%nat.
Proof.
  induction s as [|a s IH]; [reflexivity|].
  change (String a s +:+ t) with (String a (s +:+ t)). cbn [char_length].
  rewrite IH. now destruct (continuation a).
Qed.

Lemma char_length_spaces n : char_length (spaces n) = n.
Proof. induction n as [|n IH]; cbn; auto. Qed.

Lemma char_length_take n s :
  (n <= char_length s)%nat -> char_length (char_take n s) = n.
Proof.
  revert n. induction s as [|a s IH]; intros n H; cbn [char_length char_take] in *.
  - lia.
  - destruct (continuation a) eqn:E.
    + cbn [char_length]. rewrite E. now apply IH.
    + destruct n as [|n]; [reflexivity|]. cbn [char_length]. rewrite E.
      rewrite IH; lia.
Qed.

Lemma prefix_char_take n s : String.prefix (char_take n s) s = true.
Proof.
  revert n. induction s as [|a s IH]; intros n; [reflexivity|].
  cbn [char_take]. destruct (continuation a).
  - cbn [String.prefix]. destruct (ascii_dec a a); [apply IH|contradiction].
  - destruct n as [|n]; [reflexivity|]. cbn [String.prefix].
    destruct (ascii_dec a a); [apply IH|contradiction].
Qed.

Lemma spaces_are_blank n :
  Forall (fun a => a = " "%char) (list_ascii_of_string (spaces n)).
Proof. induction n as [|n IH]; cbn; constructor; auto. Qed.

(** X13.  The country column of [show] is always twenty characters wide:
    a shorter country is followed by blanks, as many as it is short of
    twenty characters, and a longer one is cut to its first twenty
    characters.  Characters are counted, not bytes: [Curaçao], of seven
    characters in eight bytes, gets thirteen blanks. *)
Theorem country_column_is_twenty_wide (country : string) :
  char_length (country_column country) = 20%nat /\
  ((char_length country < 20)%nat ->
   exists pad,
     country_column country = country +:+ pad /\
     String.length pad = (20 - char_length country)%nat /\
     Forall (fun a => a = " "%char) (list_ascii_of_string pad)) /\
  ((20 <= char_length country)%nat ->
   String.prefix (country_column country) country = true) /\
  country_column "Curaçao" = "Curaçao             ".
Proof.
  unfold country_column, MAXLEN.
  destruct (char_length country <? 20)%nat eqn:E.
  - apply Nat.ltb_lt in E. split; [|split; [|split]].
    + rewrite char_length_append, char_length_spaces. lia.
    + intros _. exists (spaces (20 - char_length country)).
      split; [reflexivity|]. split; [apply length_spaces|apply spaces_are_blank].
    + lia.
    + reflexivity.
  - apply Nat.ltb_ge in E. split; [|split; [|split]].
    + now apply char_length_take.
    + lia.
    + intros _. apply prefix_char_take.
    + reflexivity.
Qed.

Lemma short_numbers :
  forallb (fun n => (String.length (str_of_nat n) <=? 3)%nat) (seq 0 1000) = true.
Proof. vm_compute. reflexivity. Qed.

(** X14.  The numbering column of [show] holds the number of the line,
    counted from one and right-aligned: it is three characters wide for
    the first 999 lines, and as wide as the number after that. *)
Theorem numbering_column_is_right_aligned (i : nat) :
  String.length (iteration_column i)
  = Nat.max 3 (String.length (str_of_nat (i + 1))) /\
  ends_with (str_of_nat (i + 1)) (iteration_column i) = true /\
  ((i < 999)%nat -> String.length (iteration_column i) = 3%nat).
Proof.
  assert (Hw : String.length (iteration_column i)
               = Nat.max 3 (String.length (str_of_nat (i + 1)))).
  { unfold iteration_column.
    destruct (String.length (str_of_nat (i + 1)) =? 3)%nat eqn:E.
    - apply Nat.eqb_eq in E. rewrite E. reflexivity.
    - rewrite length_append_string, length_spaces. lia. }
  split; [exact Hw|]. split.
  - unfold iteration_column.
    destruct (String.length (str_of_nat (i + 1)) =? 3)%nat.
    + rewrite <- (ends_with_append "" (str_of_nat (i + 1))) at 1. reflexivity.
    + apply ends_with_append.
  - intros Hi. rewrite Hw.
    pose proof short_numbers as H. rewrite forallb_forall in H.
    specialize (H (i + 1)%nat). rewrite in_seq in H.
    assert (E : (String.length (str_of_nat (i + 1)) <=? 3)%nat = true)
      by (apply H; lia).
    apply Nat.leb_le in E. lia.
Qed.

(** ** Commands *)

Lemma bind_Val {A B} (a : A) (l : list event) (k : A -> Cmd B) :
  bind (Val a, l) k = (fst (k a), l ++ snd (k a)).
Proof. unfold bind. now destruct (k a). Qed.

Lemma bind_lift_Val {A B} (a : A) (k : A -> Cmd B) : bind (lift (Val a)) k = k a.
Proof. unfold lift. rewrite bind_Val. now destruct (k a). Qed.

Lemma bind_emit_event {B} (e : event) (k : unit -> Cmd B) :
  bind (emit e) k = (fst (k tt), e :: snd (k tt)).
Proof. unfold emit. now rewrite bind_Val. Qed.

Section ClientFacts.
Variable list_blobs : string -> Cmd (list blob).
Variable re_match : string -> string -> res bool.
Variable fetch : blob -> res string.

Lemma show_from_all i blobs svg (country : blob -> string) :
  (forall b, In b blobs -> get_country b svg = Val (country b)) ->
  show_from i blobs svg = (Val tt, listing i country blobs).
Proof.
  revert i. induction blobs as [|b blobs IH]; intros i H; [reflexivity|].
  cbn [show_from listing]. rewrite (H b (or_introl eq_refl)), bind_lift_Val.
  unfold print. rewrite bind_emit_event, IH by (intros x Hx; apply H; now right).
  reflexivity.
Qed.

Lemma show_from_stops i before b after svg (country : blob -> string) e :
  (forall x, In x before -> get_country x svg = Val (country x)) ->
  get_country b svg = Err e ->
  show_from i (before ++ b :: after) svg = (Err e, listing i country before).
Proof.
  revert i. induction before as [|x before IH]; intros i H Hb;
    cbn [app show_from listing].
  - now rewrite Hb.
  - rewrite (H x (or_introl eq_refl)), bind_lift_Val. unfold print.
    rewrite bind_emit_event, IH by (auto; intros y Hy; apply H; now right).
    reflexivity.
Qed.

(** X15.  [show] prints the heading and then one line per listed blob, in
    the order of the listing and numbered from one; a blob whose name
    gives no country ends the listing there with its error, after the
    lines of the blobs before it. *)
Theorem show_lists_blobs_in_order
    (filetype : string) (svg : bool) (blobs : list blob) (ev : list event)
    (country : blob -> string) :
  get list_blobs re_match filetype default_regex = (Val blobs, ev) ->
  ((forall b, In b blobs -> get_country b svg = Val (country b)) ->
   show list_blobs re_match filetype svg
   = (Val tt, ev ++ Say "Available countries:" :: listing 0 country blobs)) /\
  (forall before b after e,
      blobs = before ++ b :: after ->
      (forall x, In x before -> get_country x svg = Val (country x)) ->
      get_country b svg = Err e ->
      show list_blobs re_match filetype svg
      = (Err e, ev ++ Say "Available countries:" :: listing 0 country before)).
Proof.
  intros Hget. split.
  - intros H. unfold show, print.
    rewrite Hget, bind_Val, bind_emit_event, (show_from_all 0 blobs svg country H).
    reflexivity.
  - intros before b after e -> H Hb. unfold show, print.
    rewrite Hget, bind_Val, bind_emit_event,
      (show_from_stops 0 before b after svg country e H Hb).
    reflexivity.
Qed.

Lemma download_each_all blobs svg (country data : blob -> string) :
  (forall b, In b blobs -> get_country b svg = Val (country b)) ->
  (forall b, In b blobs -> fetch b = Val (data b)) ->
  download_each fetch blobs svg
  = (Val tt, flat_map (saved svg country data) blobs).
Proof.
  induction blobs as [|b blobs IH]; intros Hc Hf; [reflexivity|].
  cbn [download_each flat_map].
  rewrite (Hc b (or_introl eq_refl)), bind_lift_Val, bind_emit_event.
  rewrite (Hf b (or_introl eq_refl)), bind_lift_Val, bind_emit_event.
  rewrite IH by (intros x Hx; (apply Hc || apply Hf); now right).
  reflexivity.
Qed.

Lemma download_blobs_some y ys country_code svg (country data : blob -> string) :
  (forall b, In b (y :: ys) -> get_country b svg = Val (country b)) ->
  (forall b, In b (y :: ys) -> fetch b = Val (data b)) ->
  download_blobs fetch country_code (y :: ys) svg
  = (Val tt,
     flat_map (saved svg country data) (y :: ys)
     ++ [Say ("Download " +:+ country_code +:+ " " +:+ extension_of svg
              +:+ " complete. Saved to /" +:+ extension_of svg +:+ "s")]).
Proof.
  intros Hc Hf. unfold download_blobs, print.
  now rewrite (download_each_all _ svg country data Hc Hf).
Qed.

(** X16.  [_download] saves every blob it is given under
    [<ext>s/<country>.<ext>], in the order of the list, and then reports
    completion; given no blob it opens no file and reports that none was
    found. *)
Theorem download_saves_each_blob
    (country_code : string) (blobs : list blob) (svg : bool)
    (country data : blob -> string) :
  (forall b, In b blobs -> get_country b svg = Val (country b)) ->
  (forall b, In b blobs -> fetch b = Val (data b)) ->
  download_blobs fetch country_code blobs svg
  = (Val tt,
     match blobs with
     | [] => [Say ("Could not find a " +:+ extension_of svg
                   +:+ " file for code " +:+ country_code)]
     | _ => flat_map (saved svg country data) blobs
            ++ [Say ("Download " +:+ country_code +:+ " " +:+ extension_of svg
                     +:+ " complete. Saved to /" +:+ extension_of svg +:+ "s")]
     end).
Proof.
  intros Hc Hf. unfold download_blobs. destruct blobs as [|b blobs]; [reflexivity|].
  rewrite (download_each_all (b :: blobs) svg country data Hc Hf).
  unfold print. now rewrite bind_Val.
Qed.

Lemma append_cancel_r s a b : a +:+ s = b +:+ s -> a = b.
Proof.
  revert b. induction a as [|x a IH]; intros [|y b] H; auto.
  - exfalso. apply (f_equal String.length) in H.
    rewrite !length_append_string in H. cbn [String.length] in H. lia.
  - exfalso. apply (f_equal String.length) in H.
    rewrite !length_append_string in H. cbn [String.length] in H. lia.
  - change (String x a +:+ s) with (String x (a +:+ s)) in H.
    change (String y b +:+ s) with (String y (b +:+ s)) in H.
    injection H as -> H. f_equal. now apply IH.
Qed.

Lemma download_path_inj svg c c' :
  download_path svg c = download_path svg c' -> c = c'.
Proof.
  unfold download_path. intros H.
  apply append_cancel_l, append_cancel_l in H.
  now apply append_cancel_r in H.
Qed.

Lemma files_after_app l1 l2 fs :
  files_after (l1 ++ l2) fs = files_after l2 (files_after l1 fs).
Proof. unfold files_after. apply fold_left_app. Qed.

Lemma files_after_saved svg (country data : blob -> string) b
    (fs : gmap string string) :
  files_after (saved svg country data b) fs !! download_path svg (country b)
  = Some (data b).
Proof.
  unfold files_after, saved. cbn [fold_left file_event].
  rewrite lookup_insert_eq, lookup_insert_eq. reflexivity.
Qed.

Lemma files_after_others svg (country data : blob -> string) blobs p
    (fs : gmap string string) :
  (forall x, In x blobs -> download_path svg (country x) <> p) ->
  files_after (flat_map (saved svg country data) blobs) fs !! p = fs !! p.
Proof.
  revert fs. induction blobs as [|x blobs IH]; intros fs H; [reflexivity|].
  cbn [flat_map]. rewrite files_after_app, IH by (intros y Hy; apply H; now right).
  unfold files_after, saved. cbn [fold_left file_event].
  assert (Hx : download_path svg (country x) <> p) by (apply H; now left).
  now rewrite !lookup_insert_ne by exact Hx.
Qed.

(** X17.  When several of the blobs [_download] is given are of one
    country, they are saved under the same path and the last of them
    stays: after the command the file of a country holds the bytes of the
    last listed blob of that country. *)
Theorem download_keeps_last_blob_of_a_country
    (country_code : string) (before : list blob) (b : blob) (after : list blob)
    (svg : bool) (country data : blob -> string) (fs : gmap string string) :
  (forall x, In x (before ++ b :: after) -> get_country x svg = Val (country x)) ->
  (forall x, In x (before ++ b :: after) -> fetch x = Val (data x)) ->
  (forall x, In x after -> country x <> country b) ->
  files_after
    (snd (download_blobs fetch country_code (before ++ b :: after) svg)) fs
  !! download_path svg (country b)
  = Some (data b).
Proof.
  intros Hc Hf Hlast.
  assert (Hlog : snd (download_blobs fetch country_code (before ++ b :: after) svg)
                 = flat_map (saved svg country data) (before ++ b :: after)
                   ++ [Say ("Download " +:+ country_code +:+ " "
                            +:+ extension_of svg +:+ " complete. Saved to /"
                            +:+ extension_of svg +:+ "s")]).
  { assert (Hne : exists y ys, before ++ b :: after = y :: ys)
      by (destruct before; cbn [app]; eauto).
    destruct Hne as (y & ys & E). rewrite E in Hc, Hf |- *.
    now rewrite (download_blobs_some y ys country_code svg country data Hc Hf). }
  rewrite Hlog, files_after_app. unfold files_after at 1.
  cbn [fold_left file_event].
  rewrite flat_map_app. cbn [flat_map]. rewrite !files_after_app.
  rewrite files_after_others.
  - apply files_after_saved.
  - intros x Hx E. apply download_path_inj in E. now apply (Hlast x Hx).
Qed.

Lemma filter_match_all pattern blobs (m : string -> bool) :
  (forall b, In b blobs -> re_match pattern (name b) = Val (m (name b))) ->
  filter_match re_match pattern blobs
  = Val (List.filter (fun b => m (name b)) blobs).
Proof.
  induction blobs as [|b blobs IH]; intros H; [reflexivity|].
  cbn [filter_match List.filter].
  rewrite (H b (or_introl eq_refl)), IH by (intros x Hx; apply H; now right).
  reflexivity.
Qed.

(** X18.  [get] returns the blobs of the bucket whose name the pattern
    [<filetype>/<regex>] matches, all of them and in the order of the
    bucket's listing, and emits nothing of its own. *)
Theorem get_keeps_matching_blobs
    (filetype regex : string) (blobs : list blob) (ev : list event)
    (m : string -> bool) :
  list_blobs SVG_BUCKET = (Val blobs, ev) ->
  (forall b, In b blobs ->
             re_match (filetype +:+ "/" +:+ regex) (name b) = Val (m (name b))) ->
  get list_blobs re_match filetype regex
  = (Val (List.filter (fun b => m (name b)) blobs), ev).
Proof.
  intros Hl Hm. unfold get. rewrite Hl. unfold bind, lift.
  rewrite (filter_match_all _ blobs m Hm). now rewrite app_nil_r.
Qed.

End ClientFacts.

Lemma sample_blobs_are_british b :
  In b sample_blobs -> get_country b true = Val "GB" /\ sample_fetch b = Val (content b).
Proof. intros [<-|[<-|[]]]; split; reflexivity. Qed.

Lemma show_lists_blobs_in_order_witness :
  show sample_list_blobs accept_all "SVG" true
  = (Val tt,
     [Say "Available countries:";
      Say "   1. GB                   (SVG/2020-03-29_GB_Mobility_Report_en.svg)";
      Say "   2. GB                   (SVG/2020-04-05_GB_Mobility_Report_en.svg)"]).
Proof.
  exact (proj1
           (show_lists_blobs_in_order sample_list_blobs accept_all "SVG" true
              sample_blobs [] (fun _ => "GB") eq_refl)
           (fun b H => proj1 (sample_blobs_are_british b H))).
Defined.

Lemma download_saves_each_blob_witness :
  download_blobs sample_fetch "GB" sample_blobs true
  = (Val tt,
     [Open "svgs/GB.svg"; Write "svgs/GB.svg" "first";
      Open "svgs/GB.svg"; Write "svgs/GB.svg" "second";
      Say "Download GB svg complete. Saved to /svgs"]).
Proof.
  exact (download_saves_each_blob sample_fetch "GB" sample_blobs true
           (fun _ => "GB") content
           (fun b H => proj1 (sample_blobs_are_british b H))
           (fun b H => proj2 (sample_blobs_are_british b H))).
Defined.

Lemma download_keeps_last_blob_of_a_country_witness :
  files_after (snd (download_blobs sample_fetch "GB" sample_blobs true)) ∅
  !! "svgs/GB.svg"
  = Some "second".
Proof.
  exact (download_keeps_last_blob_of_a_country sample_fetch "GB"
           [mkBlob "SVG/2020-03-29_GB_Mobility_Report_en.svg" "first"]
           (mkBlob "SVG/2020-04-05_GB_Mobility_Report_en.svg" "second") []
           true (fun _ => "GB") content ∅
           (fun b H => proj1 (sample_blobs_are_british b H))
           (fun b H => proj2 (sample_blobs_are_british b H))
           (fun x H => match H with end)).
Defined.

Lemma get_keeps_matching_blobs_witness :
  get sample_list_blobs accept_all "SVG" default_regex = (Val sample_blobs, []).
Proof.
  exact (get_keeps_matching_blobs sample_list_blobs accept_all "SVG"
           default_regex sample_blobs [] (fun _ => true) eq_refl
           (fun _ _ => eq_refl)).
Defined.

End BucketFacts.
